(** * Temporal alignment and memoisation core of the ensemble trading system

    A shallow embedding of [system/interfaces.py] (the [Indexer] timing
    model, the [DataElement] alignment operations, the [StrategyElement]
    memoisation protocol and [FilterInterface]) together with
    [Collection.find] from [data_types/__init__.py], followed by the
    properties established about them.

    Python objects live in a store: data elements, data frames and
    strategies are addressed by locations, so that object identity,
    in-place attribute assignment and buffer sharing can be stated.
    Python exceptions are the [Raise] branch of [result]. *)

From Stdlib Require Import ZArith String Ascii List.
From stdpp Require Import gmap strings list fin_maps sorting.

Local Open Scope string_scope.
Local Open Scope Z_scope.

(** ** Exceptions and results *)

Inductive Error : Type :=
| ValueError (msg : string)
| IndexError
| KeyError (key : string)
| AttributeError (name : string)
| NotImplementedError (msg : string)
| Unbound (l : positive).
(** [Unbound] is not a Python exception: it marks a read through a location
    the store does not hold, which no reference obtained from the program
    itself can cause. *)

Inductive result (A : Type) : Type :=
| Ok (a : A)
| Raise (e : Error).

Arguments Ok {A} a.
Arguments Raise {A} e.

#[global] Instance result_ret : MRet result := fun _ a => Ok a.
#[global] Instance result_bind : MBind result := fun _ _ f r =>
  match r with Ok a => f a | Raise e => Raise e end.

(** ** Python string helpers *)

Module PyStr.

(** [str.lower] on the ASCII range; bytes outside [A-Z] are kept.  No
    string containing a non-ASCII code point lowers to one of the timing
    labels, so both sides reject such input alike. *)
Definition lower_ascii (c : ascii) : ascii :=
  let n := nat_of_ascii c in
  if ((65 <=? n) && (n <=? 90))%nat then ascii_of_nat (n + 32) else c.

Fixpoint lower (s : string) : string :=
  match s with
  | EmptyString => EmptyString
  | String c s' => String (lower_ascii c) (lower s')
  end.

(** [sub in s] *)
Fixpoint contains (sub s : string) : bool :=
  String.prefix sub s ||
  match s with
  | EmptyString => false
  | String _ s' => contains sub s'
  end.

(** [s[0]]: the first character as a string of length one. *)
Definition first (s : string) : result string :=
  match s with
  | EmptyString => Raise IndexError
  | String c _ => Ok (String c EmptyString)
  end.

(** [s[-1]] *)
Fixpoint last (s : string) : result string :=
  match s with
  | EmptyString => Raise IndexError
  | String c EmptyString => Ok (String c EmptyString)
  | String _ s' => last s'
  end.

(** [s[1]] *)
Definition second (s : string) : result string :=
  match s with
  | String _ (String c _) => Ok (String c EmptyString)
  | _ => Raise IndexError
  end.

End PyStr.

(** ** pandas data frames

    A frame is its row labels, its column labels and a row-major table of
    cells; [None] is the missing value (NaN).  The cell content [V] is kept
    abstract: the alignment operations only move cells. *)

Module DataFrame.
Section frame.
Context {V : Type}.

Record t : Type := mk {
  index : list Z;
  columns : list string;
  values : list (list (option V))
}.

Definition nan_row (df : t) : list (option V) :=
  replicate (length (columns df)) None.

(** Rows move down by [periods] (up when negative); vacated rows are
    missing, rows pushed past either end are dropped. *)
Definition shift_rows (periods : Z) (nan : list (option V))
    (rows : list (list (option V))) : list (list (option V)) :=
  let n := length rows in
  if 0 <=? periods then
    take n (replicate (Z.to_nat periods) nan ++ rows)
  else
    drop (Z.to_nat (- periods)) rows
      ++ replicate (Nat.min n (Z.to_nat (- periods))) nan.

(** The table computed by [DataFrame.shift(periods)]. *)
Definition shift (periods : Z) (df : t) : t :=
  {| index := index df;
     columns := columns df;
     values := shift_rows periods (nan_row df) (values df) |}.
End frame.
Arguments t V : clear implicits.
End DataFrame.

(** ** Timing model: class [Indexer] *)

(** The market data provider read by [market_returns]. *)
Record Market (V : Type) : Type := mkMarket {
  open : DataFrame.t V;
  close : DataFrame.t V
}.
Arguments open {V} _.
Arguments close {V} _.

(** [getattr(market, name)] *)
Definition Market_getattr {V} (market : Market V) (name : string)
    : result (DataFrame.t V) :=
  if decide (name = "open") then Ok (open market)
  else if decide (name = "close") then Ok (close market)
  else Raise (AttributeError name).

Module Indexer.

Record t : Type := mk {
  trade_timing : string;
  ind_timing : string;
  timing_map : gmap string string
}.

(** The five keys of [timing_map], in insertion order. *)
Definition timing_labels : list string :=
  ["decision"; "entry"; "exit"; "open"; "close"].

(** [Indexer.__init__] *)
Definition init (trade_timing ind_timing : string) : result t :=
  if decide (trade_timing ∈ ["OO"; "CC"]) then
    if decide (ind_timing ∈ ["O"; "C"]) then
      entry ← PyStr.first trade_timing;
      exit ← PyStr.last trade_timing;
      Ok {| trade_timing := trade_timing;
            ind_timing := ind_timing;
            timing_map :=
              <["close" := "C"]>
              (<["open" := "O"]>
              (<["exit" := exit]>
              (<["entry" := entry]>
              (<["decision" := ind_timing]> ∅)))) |}
    else Raise (ValueError "Ind_timing must be one of: 'O', 'C'")
  else Raise (ValueError "Trade timing must be one of: 'OO', 'CC'.").

(** [Indexer.convert_timing] *)
Definition convert_timing (self : t) (timing : string) : result string :=
  let timing := PyStr.lower timing in
  match timing_map self !! timing with
  | None =>
      Raise (ValueError
               (String.append "Timing must be one of: "
                  (String.concat "," timing_labels)))
  | Some bucket => Ok bucket
  end.

(** [Indexer.get_lag] *)
Definition get_lag (self : t) (start end_ : string) : result Z :=
  start ← convert_timing self start;
  end_ ← convert_timing self end_;
  if PyStr.contains "OC" (String.append start end_) then Ok 0 else Ok 1.

(** The local [timing_map] of [market_returns]. *)
Definition returns_timing_map : gmap string string :=
  <["C" := "close"]> (<["O" := "open"]> ∅).

Definition returns_lookup (bucket : string) : result string :=
  match returns_timing_map !! bucket with
  | Some name => Ok name
  | None => Raise (KeyError bucket)
  end.

(** The [lag] local of [market_returns]. *)
Definition market_returns_lag (self : t) : Z :=
  if decide (trade_timing self = "OC") then 0 else 1.

Section returns.
Context {V : Type}.
(** pandas arithmetic ([/] between frames, [- 1] on a frame) is taken as
    given: it is floating point and lives outside this repository. *)
Variable truediv : DataFrame.t V -> DataFrame.t V -> DataFrame.t V.
Variable sub_one : DataFrame.t V -> DataFrame.t V.

(** [Indexer.market_returns] *)
Definition market_returns (self : t) (market : Market V)
    : result (DataFrame.t V) :=
  let lag := market_returns_lag self in
  b0 ← PyStr.first (trade_timing self);
  n0 ← returns_lookup b0;
  trade_open ← Market_getattr market n0;
  b1 ← PyStr.second (trade_timing self);
  n1 ← returns_lookup b1;
  trade_close ← Market_getattr market n1;
  Ok (sub_one (truediv trade_open (DataFrame.shift lag trade_close))).
End returns.

End Indexer.

(** ** Python sequences *)

Module PySequence.

(** [l[i]] for an integer [i]: negative indices count from the end. *)
Definition getitem {A} (l : list A) (i : Z) : result A :=
  let n := Z.of_nat (length l) in
  let j := if i <? 0 then i + n else i in
  if (0 <=? j) && (j <? n) then
    match l !! Z.to_nat j with
    | Some x => Ok x
    | None => Raise IndexError
    end
  else Raise IndexError.

(** [l.index(x)]: the first position holding a value equal to [x].  The
    message of the [ValueError] would start with the [repr] of [x], which
    is left out. *)
Definition index {A} `{EqDecision A} (l : list A) (x : A) : result Z :=
  match list_find (fun y => y = x) l with
  | Some (i, _) => Ok (Z.of_nat i)
  | None => Raise (ValueError "is not in list")
  end.

(** [[f(x) for x in l]], stopping at the first exception. *)
Fixpoint comprehension {A B} (f : A -> result B) (l : list A) : result (list B) :=
  match l with
  | [] => Ok []
  | x :: rest =>
      y ← f x;
      ys ← comprehension f rest;
      Ok (y :: ys)
  end.

End PySequence.

(** ** Collection items: class [CollectionItem] *)

Module CollectionItem.

(** An item is its [tuple_fields] and its attribute dictionary. *)
Record t (Val : Type) : Type := mk {
  tuple_fields : list string;
  attrs : gmap string Val
}.
Arguments mk {Val} _ _.
Arguments tuple_fields {Val} _.
Arguments attrs {Val} _.

(** [getattr(self, name)] *)
Definition getattr {Val} (self : t Val) (name : string) : result Val :=
  match attrs self !! name with
  | Some v => Ok v
  | None => Raise (AttributeError name)
  end.

(** [CollectionItem.as_tuple] *)
Definition as_tuple {Val} (self : t Val) : result (list Val) :=
  PySequence.comprehension (getattr self) (tuple_fields self).

End CollectionItem.

(** ** Collections ([data_types/__init__.py]) *)

Module Collection.

(** The interface a [Collection] subclass provides: its [items], and
    [copy_with], which builds a new instance around revised items. *)
Class Ops (C Item : Type) : Type := {
  items : C -> list Item;
  copy_with : C -> list Item -> result C
}.

(** What the docstring of [copy_with] asks of an implementation. *)
Class Lawful (C Item : Type) `{Ops C Item} : Prop := {
  copy_with_ok : forall (c : C) (l : list Item), exists c',
      copy_with c l = Ok c' /\ items c' = l
}.

(** The base class: a bare list of items whose [copy_with] is left to
    subclasses. *)
Record base (Item : Type) : Type := mkBase { base_items : list Item }.
Arguments mkBase {Item} _.
Arguments base_items {Item} _.

#[global] Instance base_ops (Item : Type) : Ops (base Item) Item := {|
  items := base_items;
  copy_with := fun (_ : base Item) (_ : list Item) =>
                 Raise (NotImplementedError "")
|}.

(** [[item for item in items if condition(item)]] *)
Fixpoint select {Item} (condition : Item -> result bool) (l : list Item)
    : result (list Item) :=
  match l with
  | [] => Ok []
  | item :: rest =>
      keep ← condition item;
      new_items ← select condition rest;
      Ok (if keep : bool then item :: new_items else new_items)
  end.

(** [Collection.find] *)
Definition find {C Item} `{Ops C Item} (self : C)
    (condition : Item -> result bool) : result C :=
  new_items ← select condition (items self);
  copy_with self new_items.

(** [Collection.count] *)
Definition count {C Item} `{Ops C Item} (self : C) : nat :=
  length (items self).

(** [Collection.__len__] *)
Definition len {C Item} `{Ops C Item} (self : C) : Z :=
  Z.of_nat (length (items self)).

(** [Collection.as_list] *)
Definition as_list {C Item} `{Ops C Item} (self : C) : list Item :=
  items self.

(** [Collection.index] *)
Definition index {C Item} `{Ops C Item} `{EqDecision Item} (self : C) (item : Item)
    : result Z :=
  PySequence.index (items self) item.

(** The attributes of an item that [__getitem__] compares the key with;
    reading one an item lacks raises. *)
Class Dated (Item : Type) : Type := {
  date : Item -> result Z;
  ticker : Item -> result string
}.

(** The key of [__getitem__], by the type it is dispatched on: a
    [datetime], a [str], an [int], or anything else. *)
Inductive Key : Type :=
| KeyDate (d : Z)
| KeyStr (s : string)
| KeyInt (i : Z)
| KeyOther.

(** What [__getitem__] hands back: a collection or a single item. *)
Inductive Selection (C Item : Type) : Type :=
| Several (c : C)
| Single (item : Item).
Arguments Several {C Item} _.
Arguments Single {C Item} _.

(** [Collection.__getitem__] *)
Definition getitem {C Item} `{Ops C Item} `{Dated Item} (self : C) (key : Key)
    : result (Selection C Item) :=
  match key with
  | KeyDate d =>
      c ← find self (fun e => d' ← date e; Ok (bool_decide (d' = d)));
      Ok (Several c)
  | KeyStr s =>
      c ← find self (fun e => t ← ticker e; Ok (bool_decide (t = s)));
      Ok (Several c)
  | KeyInt i =>
      item ← PySequence.getitem (items self) i;
      Ok (Single item)
  | KeyOther =>
      Raise (ValueError "key must be a date, ticker (string), or integer")
  end.

Section as_dataframe.
Context {C Val Frame : Type} `{Ops C (CollectionItem.t Val)}.
(** The [DataFrame(data, columns = ...)] constructor of pandas, taken as
    given. *)
Variable DataFrame_of_rows : list (list Val) -> list string -> result Frame.

(** [Collection.as_dataframe] *)
Definition as_dataframe (self : C) : result Frame :=
  data ← PySequence.comprehension CollectionItem.as_tuple (items self);
  head ← PySequence.getitem (items self) 0;
  DataFrame_of_rows data (CollectionItem.tuple_fields head).
End as_dataframe.

End Collection.

(** ** The object store *)

Abbreviation loc := positive (only parsing).

(** The context a stage is invoked on: one slot per stage category, the
    shared timing model and the trade collection. *)
Module Strategy.
Record t (C : Type) : Type := mk {
  signal : option loc;
  positions : option loc;
  indexer : Indexer.t;
  trades : C
}.
Arguments mk {C} _ _ _ _.
Arguments signal {C} _.
Arguments positions {C} _.
Arguments indexer {C} _.
Arguments trades {C} _.
End Strategy.

(** The attributes of a [DataElement] instance.  [data] refers to a frame
    in the store. *)
Module Element.
Record t : Type := mk {
  data : loc;
  lag : Z;
  calculation_timing : list string;
  creator : Z;
  indexer : Indexer.t
}.

Definition with_data (d : loc) (e : t) : t :=
  mk d (lag e) (calculation_timing e) (creator e) (indexer e).
Definition with_lag (l : Z) (e : t) : t :=
  mk (data e) l (calculation_timing e) (creator e) (indexer e).
Definition with_calculation_timing (ct : list string) (e : t) : t :=
  mk (data e) (lag e) ct (creator e) (indexer e).
Definition with_creator (c : Z) (e : t) : t :=
  mk (data e) (lag e) (calculation_timing e) c (indexer e).
Definition with_indexer (i : Indexer.t) (e : t) : t :=
  mk (data e) (lag e) (calculation_timing e) (creator e) i.
End Element.

Module World.
Section world.
Context (V C : Type).

Record t : Type := mk {
  elements : gmap loc Element.t;
  frames : gmap loc (DataFrame.t V);
  strategies : gmap loc (Strategy.t C)
}.

(** Computations: read and update the store, or raise. *)
Definition M (A : Type) : Type := t -> result (A * t).

Definition ret {A} (a : A) : M A := fun w => Ok (a, w).
Definition bind {A B} (m : M A) (k : A -> M B) : M B := fun w =>
  match m w with
  | Ok (a, w') => k a w'
  | Raise e => Raise e
  end.
Definition raise {A} (e : Error) : M A := fun _ => Raise e.
Definition lift {A} (r : result A) : M A := fun w =>
  match r with Ok a => Ok (a, w) | Raise e => Raise e end.

Definition get_element (l : loc) : M Element.t := fun w =>
  match elements w !! l with
  | Some e => Ok (e, w)
  | None => Raise (Unbound l)
  end.
Definition get_frame (l : loc) : M (DataFrame.t V) := fun w =>
  match frames w !! l with
  | Some df => Ok (df, w)
  | None => Raise (Unbound l)
  end.
Definition get_strategy (l : loc) : M (Strategy.t C) := fun w =>
  match strategies w !! l with
  | Some s => Ok (s, w)
  | None => Raise (Unbound l)
  end.

(** Object creation: a location the store does not hold yet. *)
Definition new_element (e : Element.t) : M loc := fun w =>
  let l := fresh (dom (elements w)) in
  Ok (l, mk (<[l := e]> (elements w)) (frames w) (strategies w)).
Definition new_frame (df : DataFrame.t V) : M loc := fun w =>
  let l := fresh (dom (frames w)) in
  Ok (l, mk (elements w) (<[l := df]> (frames w)) (strategies w)).

(** Attribute assignment [obj.attr = v] on a data element. *)
Definition update_element (l : loc) (f : Element.t -> Element.t) : M unit :=
  fun w =>
    match elements w !! l with
    | Some e => Ok (tt, mk (<[l := f e]> (elements w)) (frames w) (strategies w))
    | None => Raise (Unbound l)
    end.

(** In-place write into a frame's buffer. *)
Definition write_frame (l : loc) (df : DataFrame.t V) (w : t) : t :=
  mk (elements w) (<[l := df]> (frames w)) (strategies w).
End world.

Arguments mk {V C} _ _ _.
Arguments elements {V C} _.
Arguments frames {V C} _.
Arguments strategies {V C} _.
Arguments ret {V C A} _ _.
Arguments bind {V C A B} _ _ _.
Arguments raise {V C A} _ _.
Arguments lift {V C A} _ _.
Arguments get_element {V C} _ _.
Arguments get_frame {V C} _ _.
Arguments get_strategy {V C} _ _.
Arguments new_element {V C} _ _.
Arguments new_frame {V C} _ _.
Arguments update_element {V C} _ _ _.
Arguments write_frame {V C} _ _ _.

#[global] Instance M_ret (V C : Type) : MRet (M V C) := fun _ => ret.
#[global] Instance M_bind (V C : Type) : MBind (M V C) :=
  fun _ _ k m => bind m k.
End World.

(** ** pandas objects in the store *)

(** Whether [DataFrame.shift(0)] hands back the receiver itself (as the
    pandas releases that still ship [Panel] do) or a copy of it. *)
Class Pandas : Type := { shift_zero_returns_self : bool }.

Module Frame.
Section frame.
Context {V C : Type} `{Pandas}.
Local Abbreviation M := (World.M V C).

(** [df.copy()]: a new frame over a new buffer. *)
Definition copy (df : loc) : M loc :=
  table ← World.get_frame df;
  World.new_frame table.

(** [df.shift(periods)] *)
Definition shift (df : loc) (periods : Z) : M loc :=
  if shift_zero_returns_self && (periods =? 0) then mret df
  else
    table ← World.get_frame df;
    World.new_frame (DataFrame.shift periods table).
End frame.
End Frame.

(** Indexing a Python list. *)
Module PyList.
(** [l[0]] *)
Definition first {A} (l : list A) : result A :=
  match l with
  | [] => Raise IndexError
  | x :: _ => Ok x
  end.

(** [l[-1]] *)
Fixpoint last {A} (l : list A) : result A :=
  match l with
  | [] => Raise IndexError
  | [x] => Ok x
  | _ :: l' => last l'
  end.
End PyList.

(** ** Data container: class [DataElement] *)

Module DataElement.
Section methods.
Context {V C : Type} `{Pandas}.
Local Abbreviation M := (World.M V C).

(** [DataElement.copy], that is [deepcopy(self)]: the instance and the
    frame it refers to are both duplicated. *)
Definition copy (self : loc) : M loc :=
  e ← World.get_element self;
  d ← Frame.copy (Element.data e);
  World.new_element (Element.with_data d e).

(** [DataElement.shift] *)
Definition shift (self : loc) (lag : Z) : M loc :=
  lagged ← copy self;
  e ← World.get_element self;
  d ← Frame.copy (Element.data e);
  World.update_element lagged (Element.with_data d);;
  l ← World.get_element lagged;
  d' ← Frame.shift (Element.data l) lag;
  World.update_element lagged (Element.with_data d');;
  l ← World.get_element lagged;
  World.update_element lagged (Element.with_lag (Element.lag l + lag));;
  mret lagged.

(** [DataElement.get_lag] *)
Definition get_lag (self : loc) (target_timing : string) : M Z :=
  e ← World.get_element self;
  start ← World.lift (PyList.last (Element.calculation_timing e));
  World.lift (Indexer.get_lag (Element.indexer e) start target_timing).

(** [DataElement.at] *)
Definition at_ (self : loc) (timing : string) : M loc :=
  lag ← get_lag self timing;
  shift self lag.

(** [DataElement.align_with] *)
Definition align_with (self other : loc) : M loc :=
  o ← World.get_element other;
  target ← World.lift (PyList.first (Element.calculation_timing o));
  alignment_lag ← get_lag self target;
  o ← World.get_element other;
  let total_lag := alignment_lag + Element.lag o in
  shift self total_lag.
(** [DataElement.index] *)
Definition index (self : loc) : M (list Z) :=
  e ← World.get_element self;
  df ← World.get_frame (Element.data e);
  mret (DataFrame.index df).

(** [DataElement.tickers] *)
Definition tickers (self : loc) : M (list string) :=
  e ← World.get_element self;
  df ← World.get_frame (Element.data e);
  mret (DataFrame.columns df).
End methods.
End DataElement.

(** ** Calculation stages: class [StrategyElement] and its subclasses *)

Module StrategyElement.
Section stage.
Context {V C : Type}.
Local Abbreviation M := (World.M V C).

(** A stage instance: its identity [id(self)] and the methods its class
    resolves to.  [execute] and [get_result] receive the strategy. *)
Record t : Type := mk {
  ID : Z;
  execute : loc -> M loc;
  get_result : loc -> M (option loc);
  calculation_timing : result (list string);
  starting_lag : Z
}.

(** The base class leaves [execute] and [get_result] abstract and has
    no [calculation_timing]. *)
Definition StrategyElement (id : Z) : t := {|
  ID := id;
  execute := fun _ =>
    World.raise (NotImplementedError "Strategy Element must define 'execute'");
  get_result := fun _ =>
    World.raise (NotImplementedError "Strategy Element must define 'get_child'");
  calculation_timing := Raise (AttributeError "calculation_timing");
  starting_lag := 0
|}.

(** [class SignalElement(StrategyElement)], with the [execute] of a
    concrete subclass. *)
Definition SignalElement (id : Z) (execute : loc -> M loc) : t := {|
  ID := id;
  execute := execute;
  get_result := fun strategy =>
    s ← World.get_strategy strategy; mret (Strategy.signal s);
  calculation_timing := Ok ["decision"];
  starting_lag := 0
|}.

(** [class PositionRuleElement(StrategyElement)] *)
Definition PositionRuleElement (id : Z) (execute : loc -> M loc) : t := {|
  ID := id;
  execute := execute;
  get_result := fun strategy =>
    s ← World.get_strategy strategy; mret (Strategy.positions s);
  calculation_timing := Ok ["entry"];
  starting_lag := 0
|}.

(** [StrategyElement.created] *)
Definition created (self : t) (result : option loc) : M bool :=
  match result with
  | None => mret false
  | Some r =>
      e ← World.get_element r;
      mret (bool_decide (Element.creator e = ID self))
  end.

(** [StrategyElement.__call__] *)
Definition call (self : t) (strategy : loc) : M (option loc) :=
  result ← get_result self strategy;
  hit ← created self result;
  if negb hit then
    result ← execute self strategy;
    World.update_element result (Element.with_creator (ID self));;
    s ← World.get_strategy strategy;
    World.update_element result (Element.with_indexer (Strategy.indexer s));;
    timing ← World.lift (calculation_timing self);
    World.update_element result (Element.with_calculation_timing timing);;
    World.update_element result (Element.with_lag (starting_lag self));;
    mret (Some result)
  else mret result.
End stage.
Arguments t V C : clear implicits.
End StrategyElement.

(** ** Filters: class [FilterInterface] *)

Module FilterInterface.
Section filter.
Context {V C Item : Type} `{Collection.Ops C Item}.

Record t : Type := mk {
  accepted_trade : Item -> result bool
}.

(** The base class leaves [accepted_trade] abstract. *)
Definition FilterInterface : t := {|
  accepted_trade := fun _ =>
    Raise (NotImplementedError "Filter must implement 'accepted_trade' method")
|}.

(** [FilterInterface.__call__] *)
Definition call (self : t) (strategy : loc) : World.M V C C :=
  s ← World.get_strategy strategy;
  World.lift (Collection.find (Strategy.trades s) (accepted_trade self)).
End filter.
Arguments t Item : clear implicits.
End FilterInterface.

(** ** Observations and well-formedness *)

Section observations.
Context {V C : Type}.

(** [x.lag] and the table behind [x.data], read through the store. *)
Definition lag_of (w : World.t V C) (x : loc) : option Z :=
  Element.lag <$> World.elements w !! x.

Definition data_of (w : World.t V C) (x : loc) : option (DataFrame.t V) :=
  e ← World.elements w !! x; World.frames w !! Element.data e.

(** A timing label the timing model recognises (case-insensitively). *)
Definition recognized (label : string) : Prop :=
  PyStr.lower label ∈ Indexer.timing_labels.

(** A temporal data object as the data model describes it: bound in the
    store with its table, carrying a timing model that passed
    construction and a non-empty sequence of recognised labels. *)
Record well_formed (w : World.t V C) (x : loc) (e : Element.t) : Prop := {
  wf_bound : World.elements w !! x = Some e;
  wf_data : is_Some (World.frames w !! Element.data e);
  wf_indexer : exists trade ind, Indexer.init trade ind = Ok (Element.indexer e);
  wf_nonempty : Element.calculation_timing e <> [];
  wf_labels : Forall recognized (Element.calculation_timing e)
}.

(** [w'] still holds every object of [w], unchanged. *)
Record extends (w w' : World.t V C) : Prop := {
  ext_elements : forall x e,
    World.elements w !! x = Some e -> World.elements w' !! x = Some e;
  ext_frames : forall d t,
    World.frames w !! d = Some t -> World.frames w' !! d = Some t;
  ext_strategies : World.strategies w' = World.strategies w
}.

(** The cached result in a slot does not count as created by stage [id]:
    the slot is empty, or its object records another creator. *)
Definition stale (w : World.t V C) (cache : option loc) (id : Z) : Prop :=
  match cache with
  | None => True
  | Some c => exists ec, World.elements w !! c = Some ec /\ Element.creator ec <> id
  end.

(** The four assignments [__call__] makes on a fresh result. *)
Definition stamped (e0 : Element.t) (id : Z) (idx : Indexer.t)
    (timing : list string) (lag : Z) : Element.t :=
  Element.mk (Element.data e0) lag timing id idx.
End observations.

(** ** The finite timing tables, as checks that compute *)

Module TimingTable.
(** Every way [Indexer.__init__] can succeed. *)
Definition constructions : list (result Indexer.t) :=
  [Indexer.init "OO" "O"; Indexer.init "OO" "C";
   Indexer.init "CC" "O"; Indexer.init "CC" "C"].

Definition for_all_indexers (check : Indexer.t -> bool) : bool :=
  forallb (fun r => match r with Ok idx => check idx | Raise _ => false end)
    constructions.

Definition for_all_labels (check : string -> bool) : bool :=
  forallb check Indexer.timing_labels.

(** The expected entry of the lag table for a pair of buckets. *)
Definition expected_lag (bucket_start bucket_end : string) : Z :=
  if bool_decide (bucket_start = "O" /\ bucket_end = "C") then 0 else 1.

Definition lag_entry_ok (idx : Indexer.t) (start end_ : string) : bool :=
  match Indexer.convert_timing idx start, Indexer.convert_timing idx end_,
        Indexer.get_lag idx start end_ with
  | Ok bs, Ok be, Ok lag => lag =? expected_lag bs be
  | _, _, _ => false
  end.

Definition lag_table_ok : bool :=
  for_all_indexers (fun idx =>
    for_all_labels (fun start =>
      for_all_labels (fun end_ => lag_entry_ok idx start end_))).
End TimingTable.

(** ** A concrete store, for running the model *)

Module Fixture.

(** pandas as released alongside [Panel]. *)
Definition pandas : Pandas := {| shift_zero_returns_self := true |}.

Record Trade : Type := mkTrade { ticker : string; profit : Z }.

(** A [Collection] subclass that implements [copy_with]. *)
Record TradeCollection : Type := mkTrades { trade_items : list Trade }.

#[global] Instance trade_collection_ops : Collection.Ops TradeCollection Trade := {|
  Collection.items := trade_items;
  Collection.copy_with := fun (_ : TradeCollection) (l : list Trade) => Ok (mkTrades l)
|}.

Definition indexer_of (trade ind : string) : Indexer.t :=
  match Indexer.init trade ind with
  | Ok idx => idx
  | Raise _ => Indexer.mk trade ind ∅
  end.

Definition levels : DataFrame.t Z :=
  DataFrame.mk [20200101; 20200102; 20200103] ["AAA"; "BBB"]
    [[Some 1; Some 0]; [Some 1; Some 1]; [Some 0; Some 1]].

Definition sizes : DataFrame.t Z :=
  DataFrame.mk [20200101; 20200102; 20200103] ["AAA"; "BBB"]
    [[None; None]; [Some 10; Some 0]; [Some 10; Some 5]].

(** A signal stamped by stage 7 and positions stamped by stage 8; the
    positions carry a timing model of their own. *)
Definition signal_element : Element.t :=
  Element.mk 1%positive 0 ["decision"] 7 (indexer_of "CC" "C").
Definition positions_element : Element.t :=
  Element.mk 2%positive 1 ["entry"] 8 (indexer_of "OO" "O").

Definition book : TradeCollection :=
  mkTrades [mkTrade "AAA" 12; mkTrade "BBB" (-3); mkTrade "AAA" 0; mkTrade "BBB" 4].

(** Strategy 1 holds both cached results, strategy 2 has run nothing yet. *)
Definition world : World.t Z TradeCollection :=
  World.mk
    (<[1%positive := signal_element]> (<[2%positive := positions_element]> ∅))
    (<[1%positive := levels]> (<[2%positive := sizes]> ∅))
    (<[1%positive := Strategy.mk (Some 1%positive) (Some 2%positive)
                       (indexer_of "CC" "C") book]>
     (<[2%positive := Strategy.mk None None (indexer_of "CC" "C") book]> ∅)).

(** An [execute] in the manner of [Crossover.execute]: it builds a new
    table and returns a new, unstamped object around it. *)
Definition crossover_execute (strategy : loc) : World.M Z TradeCollection loc :=
  _ ← World.get_strategy strategy;
  d ← World.new_frame levels;
  World.new_element (Element.mk d 0 [] 0 (Indexer.mk "" "" ∅)).

Definition winners : FilterInterface.t Trade :=
  FilterInterface.mk (fun trade => Ok (0 <? profit trade)).

Definition market : Market Z := mkMarket Z levels sizes.

(** The store after [crossover_execute] has run on strategy 2. *)
Definition unstamped : Element.t :=
  Element.mk 3%positive 0 [] 0 (Indexer.mk "" "" ∅).
Definition world_executed : World.t Z TradeCollection :=
  World.mk (<[3%positive := unstamped]> (World.elements world))
    (<[3%positive := levels]> (World.frames world))
    (World.strategies world).

(** Stand-ins for the pandas arithmetic, cell by cell on integers. *)
Definition cell_div (a b : option Z) : option Z :=
  x ← a; y ← b; if y =? 0 then None else Some (x / y).
Definition truediv (a b : DataFrame.t Z) : DataFrame.t Z :=
  DataFrame.mk (DataFrame.index a) (DataFrame.columns a)
    (zip_with (zip_with cell_div) (DataFrame.values a) (DataFrame.values b)).
Definition sub_one (a : DataFrame.t Z) : DataFrame.t Z :=
  DataFrame.mk (DataFrame.index a) (DataFrame.columns a)
    (map (map (fmap (fun x => x - 1))) (DataFrame.values a)).

End Fixture.

(** ** Level signals ([level_signals.py]) *)

Module TripleCrossover.

(** What an attribute [fast], [mid] or [slow] may hold: the indicator
    object given to [__init__] (of which only [name] is read here), or a
    bare number once [update_param] has run. *)
Inductive attribute : Type :=
| Indicator (name : string)
| Number (z : Z).

Record t : Type := mk {
  fast : attribute;
  mid : attribute;
  slow : attribute
}.

(** [TripleCrossover.__init__(self, slow, mid, fast)] *)
Definition init (slow mid fast : attribute) : t := mk fast mid slow.

(** [obj.name] *)
Definition name_of (a : attribute) : result string :=
  match a with
  | Indicator name => Ok name
  | Number _ => Raise (AttributeError "name")
  end.

(** [TripleCrossover.name] *)
Definition name (self : t) : result string :=
  f ← name_of (fast self);
  m ← name_of (mid self);
  s ← name_of (slow self);
  Ok (String.concat "x" [f; m; s]).

(** [TripleCrossover.update_param], for numeric parameters. *)
Definition update_param (self : t) (new_params : list Z) : result t :=
  let pars := merge_sort Z.le new_params in
  f ← PySequence.getitem pars 0;
  m ← PySequence.getitem pars 1;
  s ← PySequence.getitem pars 2;
  Ok (mk (Number f) (Number m) (Number s)).

End TripleCrossover.

(** ** More concrete data *)

Module Sample.

Record Event : Type := mkEvent { on : Z; symbol : string; size : Z }.

#[global] Instance event_eq_dec : EqDecision Event.
Proof. solve_decision. Defined.

#[global] Instance event_dated : Collection.Dated Event := {|
  Collection.date := fun e => Ok (on e);
  Collection.ticker := fun e => Ok (symbol e)
|}.

(** A [Collection] subclass over events that implements [copy_with]. *)
Record Events : Type := mkEvents { event_items : list Event }.

#[global] Instance events_ops : Collection.Ops Events Event := {|
  Collection.items := event_items;
  Collection.copy_with := fun (_ : Events) (l : list Event) => Ok (mkEvents l)
|}.

Definition events : Events :=
  mkEvents [mkEvent 20200101 "AAA" 10; mkEvent 20200101 "BBB" 5;
            mkEvent 20200102 "AAA" (-10); mkEvent 20200103 "BBB" 7].

End Sample.

(** * Properties *)

(** ** The timing model *)

Section indexer_facts.

Lemma init_inv trade ind idx :
  Indexer.init trade ind = Ok idx ->
  (trade = "OO" \/ trade = "CC") /\ (ind = "O" \/ ind = "C").
Proof.
  unfold Indexer.init. intros Hinit.
  destruct (decide (trade ∈ ["OO"; "CC"])) as [Ht|]; [|discriminate].
  destruct (decide (ind ∈ ["O"; "C"])) as [Hi|]; [|discriminate].
  rewrite !elem_of_cons, elem_of_nil in Ht, Hi. tauto.
Qed.

End indexer_facts.

Section lag_facts.
Import TimingTable.

Lemma for_all_indexers_spec check trade ind idx :
  for_all_indexers check = true ->
  Indexer.init trade ind = Ok idx -> check idx = true.
Proof.
  unfold for_all_indexers. rewrite forallb_forall. intros Hall Hinit.
  apply (Hall (Ok idx)). unfold constructions.
  destruct (init_inv _ _ _ Hinit) as [[-> | ->] [-> | ->]];
    rewrite <- Hinit; simpl; tauto.
Qed.

Lemma for_all_labels_spec check label :
  for_all_labels check = true ->
  label ∈ Indexer.timing_labels -> check label = true.
Proof.
  unfold for_all_labels. rewrite forallb_forall. intros Hall Hin.
  apply Hall. by apply list_elem_of_In.
Qed.

Lemma lag_table_checked : lag_table_ok = true.
Proof. vm_compute. reflexivity. Qed.

Lemma lag_entry trade ind idx start end_ :
  Indexer.init trade ind = Ok idx ->
  start ∈ Indexer.timing_labels -> end_ ∈ Indexer.timing_labels ->
  lag_entry_ok idx start end_ = true.
Proof.
  intros Hinit Hs He.
  pose proof (for_all_indexers_spec
    (fun idx => for_all_labels (fun start =>
       for_all_labels (fun end_ => lag_entry_ok idx start end_)))
    _ _ _ lag_table_checked Hinit) as H1. cbv beta in H1.
  pose proof (for_all_labels_spec
    (fun start => for_all_labels (fun end_ => lag_entry_ok idx start end_))
    _ H1 Hs) as H2. cbv beta in H2.
  exact (for_all_labels_spec _ _ H2 He).
Qed.

(** C1.  For every timing model that passes construction and every pair
    of the five timing labels, [get_lag] returns 0 exactly when the start
    label converts to bucket O and the end label to bucket C, and 1 in
    every other case. *)
Theorem get_lag_table trade ind idx start end_ :
  Indexer.init trade ind = Ok idx ->
  start ∈ Indexer.timing_labels -> end_ ∈ Indexer.timing_labels ->
  exists bucket_start bucket_end lag,
    Indexer.convert_timing idx start = Ok bucket_start
    /\ Indexer.convert_timing idx end_ = Ok bucket_end
    /\ Indexer.get_lag idx start end_ = Ok lag
    /\ (lag = 0 <-> bucket_start = "O" /\ bucket_end = "C")
    /\ (lag <> 0 -> lag = 1).
Proof.
  intros Hinit Hs He. pose proof (lag_entry _ _ _ _ _ Hinit Hs He) as Hok.
  unfold lag_entry_ok in Hok.
  destruct (Indexer.convert_timing idx start) as [bs|]; [|discriminate].
  destruct (Indexer.convert_timing idx end_) as [be|]; [|discriminate].
  destruct (Indexer.get_lag idx start end_) as [lag|]; [|discriminate].
  apply Z.eqb_eq in Hok. exists bs, be, lag.
  do 3 (split; [reflexivity|]). subst lag. unfold expected_lag.
  case_bool_decide; intuition lia.
Qed.

Lemma lower_ascii_idem c : PyStr.lower_ascii (PyStr.lower_ascii c) = PyStr.lower_ascii c.
Proof. destruct c as [[] [] [] [] [] [] [] []]; reflexivity. Qed.

Lemma lower_idem s : PyStr.lower (PyStr.lower s) = PyStr.lower s.
Proof. induction s as [|c s IH]; simpl; [done|]. by rewrite lower_ascii_idem, IH. Qed.

Lemma convert_timing_lower idx timing :
  Indexer.convert_timing idx (PyStr.lower timing) = Indexer.convert_timing idx timing.
Proof. unfold Indexer.convert_timing. by rewrite lower_idem. Qed.

Lemma get_lag_lower idx start end_ :
  Indexer.get_lag idx (PyStr.lower start) (PyStr.lower end_)
  = Indexer.get_lag idx start end_.
Proof. unfold Indexer.get_lag. by rewrite !convert_timing_lower. Qed.

Lemma get_lag_total trade ind idx start end_ :
  Indexer.init trade ind = Ok idx ->
  recognized start -> recognized end_ ->
  exists lag, Indexer.get_lag idx start end_ = Ok lag /\ (lag = 0 \/ lag = 1).
Proof.
  unfold recognized. intros Hinit Hs He.
  pose proof (lag_entry _ _ _ _ _ Hinit Hs He) as Hok.
  unfold lag_entry_ok in Hok. rewrite get_lag_lower in Hok.
  destruct (Indexer.convert_timing idx _) as [bs|]; [|discriminate].
  destruct (Indexer.convert_timing idx _) as [be|]; [|discriminate].
  destruct (Indexer.get_lag idx start end_) as [lag|]; [|discriminate].
  apply Z.eqb_eq in Hok. exists lag. split; [done|].
  subst lag. unfold expected_lag. case_bool_decide; auto.
Qed.
End lag_facts.


(** ** Shifting a table *)

Section frame_facts.
Context {V : Type}.
Implicit Types (rows : list (list (option V))) (nan : list (option V)).

Lemma shift_rows_zero nan rows : DataFrame.shift_rows 0 nan rows = rows.
Proof. unfold DataFrame.shift_rows. simpl. apply take_ge. lia. Qed.

Lemma shift_rows_length p nan rows :
  length (DataFrame.shift_rows p nan rows) = length rows.
Proof.
  unfold DataFrame.shift_rows. destruct (0 <=? p).
  - rewrite length_take, length_app, length_replicate. lia.
  - rewrite length_app, length_drop, length_replicate. lia.
Qed.

Lemma shift_rows_nonneg (n : nat) nan rows :
  DataFrame.shift_rows (Z.of_nat n) nan rows
  = take (length rows) (replicate n nan ++ rows).
Proof.
  unfold DataFrame.shift_rows.
  destruct (Z.leb_spec 0 (Z.of_nat n)); [|lia]. by rewrite Nat2Z.id.
Qed.

Lemma shift_rows_compose_nat (a b : nat) nan rows :
  DataFrame.shift_rows (Z.of_nat b) nan
    (DataFrame.shift_rows (Z.of_nat a) nan rows)
  = DataFrame.shift_rows (Z.of_nat (a + b)) nan rows.
Proof.
  rewrite !shift_rows_nonneg.
  rewrite length_take, length_app, length_replicate.
  replace (length rows `min` (a + length rows))%nat with (length rows) by lia.
  rewrite (Nat.add_comm a b), replicate_add, <- app_assoc.
  rewrite !(take_app (replicate b nan)), length_replicate.
  f_equal. rewrite take_take. f_equal. lia.
Qed.

Lemma shift_rows_compose (a b : Z) nan rows :
  0 <= a -> 0 <= b ->
  DataFrame.shift_rows b nan (DataFrame.shift_rows a nan rows)
  = DataFrame.shift_rows (a + b) nan rows.
Proof.
  intros Ha Hb.
  rewrite <- (Z2Nat.id a), <- (Z2Nat.id b) by lia.
  rewrite <- Nat2Z.inj_add. apply shift_rows_compose_nat.
Qed.

Lemma shift_zero (df : DataFrame.t V) : DataFrame.shift 0 df = df.
Proof.
  destruct df as [i c v]. unfold DataFrame.shift. simpl.
  by rewrite shift_rows_zero.
Qed.

Lemma shift_compose (a b : Z) (df : DataFrame.t V) :
  0 <= a -> 0 <= b ->
  DataFrame.shift b (DataFrame.shift a df) = DataFrame.shift (a + b) df.
Proof.
  intros Ha Hb. unfold DataFrame.shift, DataFrame.nan_row. simpl.
  by rewrite shift_rows_compose.
Qed.
End frame_facts.

(** ** Running store computations *)

Section store_facts.
Context {V C : Type}.
Implicit Types (w : World.t V C).
Local Abbreviation M := (World.M V C).

Lemma run_bind {A B} (m : M A) (k : A -> M B) w :
  (m ≫= k) w = match m w with Ok (a, w') => k a w' | Raise e => Raise e end.
Proof. reflexivity. Qed.

Lemma run_ret {A} (a : A) w : (mret a : M A) w = Ok (a, w).
Proof. reflexivity. Qed.

Lemma run_get_element w l e :
  World.elements w !! l = Some e -> World.get_element l w = Ok (e, w).
Proof. unfold World.get_element. by intros ->. Qed.

Lemma run_get_frame w l df :
  World.frames w !! l = Some df -> World.get_frame l w = Ok (df, w).
Proof. unfold World.get_frame. by intros ->. Qed.

Lemma run_get_strategy w l s :
  World.strategies w !! l = Some s -> World.get_strategy l w = Ok (s, w).
Proof. unfold World.get_strategy. by intros ->. Qed.

Lemma run_update_element w l e f :
  World.elements w !! l = Some e ->
  World.update_element l f w
  = Ok (tt, World.mk (<[l := f e]> (World.elements w)) (World.frames w)
              (World.strategies w)).
Proof. unfold World.update_element. by intros ->. Qed.

Lemma fresh_element w : World.elements w !! fresh (dom (World.elements w)) = None.
Proof. apply not_elem_of_dom, is_fresh. Qed.

Lemma fresh_frame w : World.frames w !! fresh (dom (World.frames w)) = None.
Proof. apply not_elem_of_dom, is_fresh. Qed.
End store_facts.

(** ** Data elements *)

Section element_facts.
Context {V C : Type} `{Pandas}.
Implicit Types (w : World.t V C).

Lemma frame_copy_spec w d df :
  World.frames w !! d = Some df ->
  exists d', Frame.copy d w
    = Ok (d', World.mk (World.elements w) (<[d' := df]> (World.frames w))
                (World.strategies w))
    /\ World.frames w !! d' = None.
Proof.
  intros Hd. unfold Frame.copy. rewrite run_bind, (run_get_frame _ _ _ Hd).
  eexists. split; [reflexivity|]. apply fresh_frame.
Qed.

Lemma frame_shift_spec w d df p :
  World.frames w !! d = Some df ->
  exists d' w', Frame.shift d p w = Ok (d', w')
    /\ World.elements w' = World.elements w
    /\ World.strategies w' = World.strategies w
    /\ World.frames w' !! d' = Some (DataFrame.shift p df)
    /\ (forall l t, World.frames w !! l = Some t -> World.frames w' !! l = Some t)
    /\ (d' = d \/ World.frames w !! d' = None).
Proof.
  intros Hd. unfold Frame.shift.
  destruct (shift_zero_returns_self && (p =? 0)) eqn:Hz.
  - apply andb_true_iff in Hz as [_ Hp%Z.eqb_eq]. subst p.
    exists d, w. rewrite shift_zero. repeat split; auto.
  - rewrite run_bind, (run_get_frame _ _ _ Hd).
    eexists _, _. split; [reflexivity|]. simpl.
    pose proof (fresh_frame w) as Hf.
    repeat split; auto.
    + apply lookup_insert_eq.
    + intros l t Hl. rewrite lookup_insert_ne; [done|]. congruence.
Qed.

Lemma shift_spec w x e df p :
  World.elements w !! x = Some e ->
  World.frames w !! Element.data e = Some df ->
  exists y d w',
    DataElement.shift x p w = Ok (y, w')
    /\ World.elements w !! y = None
    /\ World.frames w !! d = None
    /\ World.elements w'
       = <[y := Element.with_lag (Element.lag e + p) (Element.with_data d e)]>
           (World.elements w)
    /\ World.frames w' !! d = Some (DataFrame.shift p df)
    /\ (forall l t, World.frames w !! l = Some t -> World.frames w' !! l = Some t)
    /\ World.strategies w' = World.strategies w.
Proof.
  intros Hx Hd. unfold DataElement.shift, DataElement.copy.
  rewrite run_bind, run_bind, (run_get_element _ _ _ Hx), run_bind.
  destruct (frame_copy_spec w _ _ Hd) as (d1 & -> & Hd1).
  set (w1 := World.mk _ _ _).
  unfold World.new_element at 1. cbn [World.elements World.frames World.strategies w1].
  set (y := fresh (dom (World.elements w))).
  assert (Hy : World.elements w !! y = None) by apply fresh_element.
  assert (Hxy : x <> y) by congruence.
  set (w2 := World.mk _ _ _).
  rewrite run_bind, (run_get_element w2 x e) by (simpl; by rewrite lookup_insert_ne).
  assert (Hd2 : World.frames w2 !! Element.data e = Some df).
  { simpl. rewrite lookup_insert_ne; [done|congruence]. }
  rewrite run_bind.
  destruct (frame_copy_spec w2 _ _ Hd2) as (d2 & -> & Hd2').
  set (w3 := World.mk _ _ _).
  rewrite run_bind, (run_update_element w3 y (Element.with_data d1 e))
    by (simpl; apply lookup_insert_eq).
  set (w4 := World.mk _ _ _).
  rewrite run_bind,
    (run_get_element w4 y (Element.with_data d2 (Element.with_data d1 e)))
    by (simpl; apply lookup_insert_eq).
  assert (Hd4 : World.frames w4 !! d2 = Some df) by (simpl; apply lookup_insert_eq).
  destruct (frame_shift_spec w4 d2 df p Hd4)
    as (d3 & w5 & Hrun & He5 & Hs5 & Hf5 & Hpres5 & Hd3).
  cbn [Element.data Element.with_data]. rewrite run_bind, Hrun.
  assert (Hy5 : World.elements w5 !! y
                = Some (Element.with_data d2 (Element.with_data d1 e))).
  { rewrite He5. simpl. apply lookup_insert_eq. }
  rewrite run_bind, (run_update_element w5 y _ _ Hy5).
  set (w6 := World.mk _ _ _).
  rewrite run_bind, (run_get_element w6 y
             (Element.with_data d3 (Element.with_data d2 (Element.with_data d1 e))))
    by (simpl; apply lookup_insert_eq).
  rewrite run_bind, (run_update_element w6 y
             (Element.with_data d3 (Element.with_data d2 (Element.with_data d1 e))))
    by (simpl; apply lookup_insert_eq).
  rewrite run_ret.
  exists y, d3, (World.mk
    (<[y := Element.with_lag (Element.lag e + p) (Element.with_data d3 e)]>
       (World.elements w)) (World.frames w5) (World.strategies w)).
  split.
  { do 2 f_equal. subst w6. simpl. rewrite He5, Hs5. simpl.
    by rewrite !insert_insert_eq. }
  assert (Hd2w : World.frames w !! d2 = None).
  { simpl in Hd2'. by apply lookup_insert_None in Hd2' as [? ?]. }
  assert (Hfresh3 : World.frames w !! d3 = None).
  { destruct Hd3 as [-> | Hd3]; [done|]. simpl in Hd3. apply lookup_insert_None in Hd3 as [Hd3 ?].
      apply lookup_insert_None in Hd3 as [? ?]. done. }
  repeat split; auto.
  intros l t Hl. apply Hpres5. simpl.
  rewrite !lookup_insert_ne; [done| |]; congruence.
Qed.
End element_facts.

Section more_element_facts.
Context {V C : Type} `{Pandas}.
Implicit Types (w : World.t V C).

Lemma run_lift {A} (r : result A) w :
  World.lift r w = match r with Ok a => Ok (a, w) | Raise e => Raise e end.
Proof. reflexivity. Qed.

Lemma extends_lag_of w w' x l :
  extends w w' -> lag_of w x = Some l -> lag_of w' x = Some l.
Proof.
  intros Hext. unfold lag_of. destruct (World.elements w !! x) as [e|] eqn:Hx; [|done].
  by rewrite (ext_elements _ _ Hext _ _ Hx).
Qed.

Lemma extends_data_of w w' x t :
  extends w w' -> data_of w x = Some t -> data_of w' x = Some t.
Proof.
  intros Hext. unfold data_of.
  destruct (World.elements w !! x) as [e|] eqn:Hx; [|done]. simpl.
  rewrite (ext_elements _ _ Hext _ _ Hx). simpl. apply (ext_frames _ _ Hext).
Qed.

(** What [shift] returns, read through the store: a new instance [y]
    with attributes [ey], over a buffer that did not exist before. *)
Lemma shift_observed w x e df p :
  World.elements w !! x = Some e ->
  World.frames w !! Element.data e = Some df ->
  exists y ey w',
    DataElement.shift x p w = Ok (y, w')
    /\ World.elements w' !! y = Some ey
    /\ ey = Element.with_lag (Element.lag e + p)
              (Element.with_data (Element.data ey) e)
    /\ World.frames w' !! Element.data ey = Some (DataFrame.shift p df)
    /\ World.frames w !! Element.data ey = None
    /\ World.elements w !! y = None
    /\ extends w w'.
Proof.
  intros Hx Hd.
  destruct (shift_spec w x e df p Hx Hd)
    as (y & d & w' & Hrun & Hy & Hdfresh & Hel & Hfr & Hpres & Hst).
  exists y, (Element.with_lag (Element.lag e + p) (Element.with_data d e)), w'.
  split; [done|]. split; [rewrite Hel; apply lookup_insert_eq|].
  do 4 (split; [done|]).
  split; [|done|done]. intros z ez Hz. rewrite Hel.
  rewrite lookup_insert_ne; [done|congruence].
Qed.

Lemma observed_lag_of w y ey : World.elements w !! y = Some ey ->
  lag_of w y = Some (Element.lag ey).
Proof. unfold lag_of. by intros ->. Qed.

Lemma observed_data_of w y ey : World.elements w !! y = Some ey ->
  data_of w y = World.frames w !! Element.data ey.
Proof. unfold data_of. by intros ->. Qed.

Lemma get_lag_run w x e start target lag :
  World.elements w !! x = Some e ->
  PyList.last (Element.calculation_timing e) = Ok start ->
  Indexer.get_lag (Element.indexer e) start target = Ok lag ->
  DataElement.get_lag x target w = Ok (lag, w).
Proof.
  intros Hx Hlast Hlag. unfold DataElement.get_lag.
  rewrite run_bind, (run_get_element _ _ _ Hx), run_bind, run_lift, Hlast.
  by rewrite run_lift, Hlag.
Qed.

Lemma at_run w x e start timing lag :
  World.elements w !! x = Some e ->
  PyList.last (Element.calculation_timing e) = Ok start ->
  Indexer.get_lag (Element.indexer e) start timing = Ok lag ->
  DataElement.at_ x timing w = DataElement.shift x lag w.
Proof.
  intros Hx Hlast Hlag. unfold DataElement.at_.
  by rewrite run_bind, (get_lag_run _ _ _ _ _ _ Hx Hlast Hlag).
Qed.

Lemma align_with_run w x other e o start target lag :
  World.elements w !! x = Some e ->
  World.elements w !! other = Some o ->
  PyList.last (Element.calculation_timing e) = Ok start ->
  PyList.first (Element.calculation_timing o) = Ok target ->
  Indexer.get_lag (Element.indexer e) start target = Ok lag ->
  DataElement.align_with x other w
  = DataElement.shift x (lag + Element.lag o) w.
Proof.
  intros Hx Ho Hlast Hfirst Hlag. unfold DataElement.align_with.
  rewrite run_bind, (run_get_element _ _ _ Ho), run_bind, run_lift, Hfirst.
  rewrite run_bind, (get_lag_run _ _ _ _ _ _ Hx Hlast Hlag).
  by rewrite run_bind, (run_get_element _ _ _ Ho).
Qed.

Lemma last_recognized (ct : list string) :
  ct <> [] -> Forall recognized ct ->
  exists label, PyList.last ct = Ok label /\ recognized label.
Proof.
  induction ct as [|a ct IH]; [done|]. intros _ Hall.
  apply Forall_cons in Hall as [Ha Hall].
  destruct ct as [|b ct]; [by exists a|].
  destruct IH as (label & Hl & Hr); [done|done|]. by exists label.
Qed.

Lemma first_recognized (ct : list string) :
  ct <> [] -> Forall recognized ct ->
  exists label, PyList.first ct = Ok label /\ recognized label.
Proof.
  destruct ct as [|a ct]; [done|]. intros _ Hall.
  apply Forall_cons in Hall as [Ha _]. by exists a.
Qed.
End more_element_facts.

(** ** Alignment operations *)

Section alignment_claims.
Context {V C : Type} `{Pandas}.
Implicit Types (w : World.t V C).

Lemma align_with_observed w self other s o df :
  World.elements w !! self = Some s ->
  World.frames w !! Element.data s = Some df ->
  (exists trade ind, Indexer.init trade ind = Ok (Element.indexer s)) ->
  Element.calculation_timing s <> [] ->
  Forall recognized (Element.calculation_timing s) ->
  World.elements w !! other = Some o ->
  Element.calculation_timing o <> [] ->
  Forall recognized (Element.calculation_timing o) ->
  exists start target alignment_lag,
    PyList.last (Element.calculation_timing s) = Ok start
    /\ PyList.first (Element.calculation_timing o) = Ok target
    /\ Indexer.get_lag (Element.indexer s) start target = Ok alignment_lag
    /\ (alignment_lag = 0 \/ alignment_lag = 1)
    /\ DataElement.align_with self other w
       = DataElement.shift self (alignment_lag + Element.lag o) w.
Proof.
  intros Hs Hdf (trade & ind & Hinit) Hne Hrec Ho Hneo Hreco.
  destruct (last_recognized _ Hne Hrec) as (start & Hstart & Hrs).
  destruct (first_recognized _ Hneo Hreco) as (target & Htarget & Hrt).
  destruct (get_lag_total _ _ _ _ _ Hinit Hrs Hrt) as (lag & Hlag & Hrange).
  exists start, target, lag. do 4 (split; [done|]).
  by apply (align_with_run w self other s o start target lag).
Qed.

(** C2.  For well-formed data objects [self] and [other],
    [self.align_with(other)] is [self.shift(total_lag)] with
    [total_lag = get_lag(self.calculation_timing[-1],
    other.calculation_timing[0]) + other.lag]; the returned object has lag
    [self.lag + total_lag] and the receiver's table shifted by
    [total_lag]. *)
Theorem align_with_total_lag w self other s o :
  well_formed w self s -> well_formed w other o ->
  exists start target alignment_lag,
    PyList.last (Element.calculation_timing s) = Ok start
    /\ PyList.first (Element.calculation_timing o) = Ok target
    /\ Indexer.get_lag (Element.indexer s) start target = Ok alignment_lag
    /\ let total_lag := alignment_lag + Element.lag o in
       exists aligned w',
         DataElement.align_with self other w = Ok (aligned, w')
         /\ DataElement.shift self total_lag w = Ok (aligned, w')
         /\ lag_of w' aligned = Some (Element.lag s + total_lag)
         /\ data_of w' aligned = DataFrame.shift total_lag <$> data_of w self.
Proof.
  intros [Hs [df Hdf] Hidx Hne Hrec] [Ho _ _ Hneo Hreco].
  destruct (align_with_observed w self other s o df Hs Hdf Hidx Hne Hrec Ho Hneo Hreco)
    as (start & target & lag & Hstart & Htarget & Hlag & _ & Hrun).
  exists start, target, lag. do 3 (split; [done|]). intros total_lag.
  destruct (shift_observed w self s df total_lag Hs Hdf)
    as (y & ey & w' & Hshift & Hy & Hey & Hfr & _ & _ & _).
  exists y, w'. split; [by rewrite Hrun|]. split; [done|].
  rewrite (observed_lag_of _ _ _ Hy), (observed_data_of _ _ _ Hy), Hfr.
  rewrite (observed_data_of _ _ _ Hs), Hdf. split; [|done].
  by rewrite Hey.
Qed.

(** C5.  For non-negative [a] and [b], [x.shift(a).shift(b)] and
    [x.shift(a + b)] carry the same table and the same lag: shifting
    composes additively. *)
Theorem shift_shift_additive w x e df a b :
  World.elements w !! x = Some e ->
  World.frames w !! Element.data e = Some df ->
  0 <= a -> 0 <= b ->
  exists y w1 z w2 s w3,
    DataElement.shift x a w = Ok (y, w1)
    /\ DataElement.shift y b w1 = Ok (z, w2)
    /\ DataElement.shift x (a + b) w2 = Ok (s, w3)
    /\ data_of w3 z = Some (DataFrame.shift (a + b) df)
    /\ data_of w3 s = Some (DataFrame.shift (a + b) df)
    /\ lag_of w3 z = Some (Element.lag e + (a + b))
    /\ lag_of w3 s = Some (Element.lag e + (a + b)).
Proof.
  intros Hx Hdf Ha Hb.
  destruct (shift_observed w x e df a Hx Hdf)
    as (y & ey & w1 & Hrun1 & Hy & Hey & Hfy & _ & _ & Hext1).
  destruct (shift_observed w1 y ey (DataFrame.shift a df) b Hy Hfy)
    as (z & ez & w2 & Hrun2 & Hz & Hez & Hfz & _ & _ & Hext2).
  assert (Hx2 : World.elements w2 !! x = Some e).
  { apply (ext_elements _ _ Hext2), (ext_elements _ _ Hext1), Hx. }
  assert (Hdf2 : World.frames w2 !! Element.data e = Some df).
  { apply (ext_frames _ _ Hext2), (ext_frames _ _ Hext1), Hdf. }
  destruct (shift_observed w2 x e df (a + b) Hx2 Hdf2)
    as (s & es & w3 & Hrun3 & Hs & Hes & Hfs & _ & _ & Hext3).
  exists y, w1, z, w2, s, w3. do 3 (split; [done|]).
  assert (Hz3 : World.elements w3 !! z = Some ez)
    by apply (ext_elements _ _ Hext3), Hz.
  rewrite (observed_data_of _ _ _ Hz3), (observed_data_of _ _ _ Hs).
  rewrite (observed_lag_of _ _ _ Hz3), (observed_lag_of _ _ _ Hs).
  rewrite (ext_frames _ _ Hext3 _ _ Hfz), Hfs, shift_compose by done.
  do 2 (split; [done|]). rewrite Hez, Hes, Hey. simpl.
  split; f_equal; lia.
Qed.

(** C7.  For any shift amount, [shift] leaves the receiver as it was
    (same attributes, same table) and hands back a distinct object over a
    buffer that did not exist before: writing into either buffer leaves
    the table seen through the other object untouched. *)
Theorem shift_leaves_receiver w x e df p :
  World.elements w !! x = Some e ->
  World.frames w !! Element.data e = Some df ->
  exists y ey w',
    DataElement.shift x p w = Ok (y, w')
    /\ World.elements w' !! y = Some ey
    /\ World.elements w' !! x = Some e
    /\ World.frames w' !! Element.data e = Some df
    /\ y <> x
    /\ Element.data ey <> Element.data e
    /\ World.frames w !! Element.data ey = None
    /\ (forall t, data_of (World.write_frame (Element.data ey) t w') x = Some df)
    /\ (forall t, data_of (World.write_frame (Element.data e) t w') y
                  = data_of w' y).
Proof.
  intros Hx Hdf.
  destruct (shift_observed w x e df p Hx Hdf)
    as (y & ey & w' & Hrun & Hy & Hey & Hfy & Hfresh & Hynew & Hext).
  exists y, ey, w'. split; [done|]. split; [done|].
  pose proof (ext_elements _ _ Hext _ _ Hx) as Hx'.
  pose proof (ext_frames _ _ Hext _ _ Hdf) as Hdf'.
  assert (Hne : Element.data ey <> Element.data e) by congruence.
  do 2 (split; [done|]). split; [congruence|]. do 2 (split; [done|]).
  split; intros t; unfold data_of, World.write_frame; simpl.
  - rewrite Hx'. simpl. by rewrite lookup_insert_ne.
  - rewrite Hy. simpl. by rewrite lookup_insert_ne.
Qed.

(** C8.  Non-negative lag is preserved: from a well-formed object with
    [lag >= 0], the objects returned by [at(timing)], by
    [align_with(other)] for an [other] with [lag >= 0], and by [shift(p)]
    for [p >= 0] all have [lag >= 0]. *)
Theorem lag_stays_nonnegative w x e other o timing p :
  well_formed w x e -> 0 <= Element.lag e ->
  recognized timing ->
  well_formed w other o -> 0 <= Element.lag o ->
  0 <= p ->
  (exists y w' lag, DataElement.at_ x timing w = Ok (y, w')
      /\ lag_of w' y = Some lag /\ 0 <= lag)
  /\ (exists y w' lag, DataElement.align_with x other w = Ok (y, w')
      /\ lag_of w' y = Some lag /\ 0 <= lag)
  /\ (exists y w' lag, DataElement.shift x p w = Ok (y, w')
      /\ lag_of w' y = Some lag /\ 0 <= lag).
Proof.
  intros [Hx [df Hdf] (trade & ind & Hinit) Hne Hrec] Hlag Htiming
         [Ho _ _ Hneo Hreco] Hlago Hp.
  assert (Hshift : forall q, 0 <= q ->
    exists y w' lag, DataElement.shift x q w = Ok (y, w')
      /\ lag_of w' y = Some lag /\ 0 <= lag).
  { intros q Hq.
    destruct (shift_observed w x e df q Hx Hdf)
      as (y & ey & w' & Hrun & Hy & Hey & _).
    exists y, w', (Element.lag e + q). split; [done|].
    rewrite (observed_lag_of _ _ _ Hy), Hey. simpl. split; [done|lia]. }
  split; [|split].
  - destruct (last_recognized _ Hne Hrec) as (start & Hstart & Hrs).
    destruct (get_lag_total _ _ _ _ _ Hinit Hrs Htiming) as (lag & Hl & Hrange).
    rewrite (at_run w x e start timing lag Hx Hstart Hl).
    apply Hshift. lia.
  - destruct (align_with_observed w x other e o df Hx Hdf
                (ex_intro _ trade (ex_intro _ ind Hinit)) Hne Hrec Ho Hneo Hreco)
      as (start & target & lag & _ & _ & _ & Hrange & ->).
    apply Hshift. lia.
  - by apply Hshift.
Qed.
End alignment_claims.

Section compatibility.
Context {V C : Type} `{Pandas}.
Implicit Types (w : World.t V C).

(** C6, as the code has it.  [align_with] makes no compatibility check and
    raises nothing for an [other] built under another timing model: with
    the alignment lag [get_lag(self.calculation_timing[-1],
    other.calculation_timing[0])] computed under the receiver's own timing
    model, it is [self.shift(alignment_lag + other.lag)], and returns an
    object of lag [self.lag + alignment_lag + other.lag] over the
    receiver's table shifted by that much.  This holds whatever timing
    model [other] carries: replacing it by any [idx'] gives the same shift,
    the same lag and the same table. *)
Theorem align_with_ignores_other_indexer w self other s o idx' :
  well_formed w self s ->
  World.elements w !! other = Some o ->
  self <> other ->
  Element.calculation_timing o <> [] ->
  Forall recognized (Element.calculation_timing o) ->
  let w_alt := World.mk (<[other := Element.with_indexer idx' o]> (World.elements w))
                 (World.frames w) (World.strategies w) in
  exists start target alignment_lag df,
    PyList.last (Element.calculation_timing s) = Ok start
    /\ PyList.first (Element.calculation_timing o) = Ok target
    /\ Indexer.get_lag (Element.indexer s) start target = Ok alignment_lag
    /\ World.frames w !! Element.data s = Some df
    /\ let total_lag := alignment_lag + Element.lag o in
       exists aligned w1 aligned' w1',
         DataElement.align_with self other w = Ok (aligned, w1)
         /\ DataElement.align_with self other w_alt = Ok (aligned', w1')
         /\ DataElement.shift self total_lag w = Ok (aligned, w1)
         /\ DataElement.shift self total_lag w_alt = Ok (aligned', w1')
         /\ lag_of w1 aligned = Some (Element.lag s + total_lag)
         /\ data_of w1 aligned = Some (DataFrame.shift total_lag df)
         /\ lag_of w1' aligned' = lag_of w1 aligned
         /\ data_of w1' aligned' = data_of w1 aligned
         /\ is_Some (data_of w1 aligned).
Proof.
  intros [Hs [df Hdf] Hidx Hne Hrec] Ho Hdiff Hneo Hreco w_alt.
  destruct (align_with_observed w self other s o df Hs Hdf Hidx Hne Hrec Ho Hneo Hreco)
    as (start & target & lag & Hstart & Htarget & Hlag & _ & Hrun).
  assert (Hs' : World.elements w_alt !! self = Some s).
  { simpl. by rewrite lookup_insert_ne. }
  assert (Ho' : World.elements w_alt !! other = Some (Element.with_indexer idx' o)).
  { simpl. apply lookup_insert_eq. }
  pose proof (align_with_run w_alt self other s _ start target lag
                Hs' Ho' Hstart Htarget Hlag) as Hrun'.
  simpl in Hrun'.
  destruct (shift_observed w self s df (lag + Element.lag o) Hs Hdf)
    as (y & ey & w1 & Hshift & Hy & Hey & Hfy & _ & _ & _).
  destruct (shift_observed w_alt self s df (lag + Element.lag o) Hs' Hdf)
    as (y' & ey' & w1' & Hshift' & Hy' & Hey' & Hfy' & _ & _ & _).
  exists start, target, lag, df. do 4 (split; [done|]). intros total_lag.
  exists y, w1, y', w1'. rewrite Hrun, Hrun'. do 4 (split; [done|]).
  rewrite (observed_lag_of _ _ _ Hy), (observed_lag_of _ _ _ Hy').
  rewrite (observed_data_of _ _ _ Hy), (observed_data_of _ _ _ Hy').
  rewrite Hfy, Hfy', Hey, Hey'. done.
Qed.
End compatibility.


(** ** The memoisation protocol *)

Section stage_facts.
Context {V C : Type}.
Implicit Types (w : World.t V C) (stage : StrategyElement.t V C).

Lemma call_hit stage strategy w c ec :
  StrategyElement.get_result stage strategy w = Ok (Some c, w) ->
  World.elements w !! c = Some ec ->
  Element.creator ec = StrategyElement.ID stage ->
  StrategyElement.call stage strategy w = Ok (Some c, w).
Proof.
  intros Hget Hc Hid. unfold StrategyElement.call.
  rewrite run_bind, Hget, run_bind. unfold StrategyElement.created.
  rewrite run_bind, (run_get_element _ _ _ Hc), run_ret.
  by rewrite bool_decide_eq_true_2.
Qed.

Lemma call_miss stage strategy w cache :
  StrategyElement.get_result stage strategy w = Ok (cache, w) ->
  stale w cache (StrategyElement.ID stage) ->
  StrategyElement.call stage strategy w
  = match StrategyElement.execute stage strategy w with
    | Raise err => Raise err
    | Ok (result, w1) =>
        (World.update_element result
           (Element.with_creator (StrategyElement.ID stage));;
         s ← World.get_strategy strategy;
         World.update_element result
           (Element.with_indexer (Strategy.indexer s));;
         timing ← World.lift (StrategyElement.calculation_timing stage);
         World.update_element result (Element.with_calculation_timing timing);;
         World.update_element result
           (Element.with_lag (StrategyElement.starting_lag stage));;
         mret (Some result)) w1
    end.
Proof.
  intros Hget Hstale. unfold StrategyElement.call.
  rewrite run_bind, Hget, run_bind. unfold StrategyElement.created.
  destruct cache as [c|]; simpl in Hstale.
  - destruct Hstale as (ec & Hc & Hne).
    rewrite run_bind, (run_get_element _ _ _ Hc), run_ret.
    rewrite bool_decide_eq_false_2 by done. cbn [negb]. by rewrite run_bind.
  - rewrite run_ret. cbn [negb]. by rewrite run_bind.
Qed.

Lemma call_miss_stamps stage strategy w cache r w1 e0 s1 timing :
  StrategyElement.get_result stage strategy w = Ok (cache, w) ->
  stale w cache (StrategyElement.ID stage) ->
  StrategyElement.calculation_timing stage = Ok timing ->
  StrategyElement.execute stage strategy w = Ok (r, w1) ->
  World.elements w1 !! r = Some e0 ->
  World.strategies w1 !! strategy = Some s1 ->
  StrategyElement.call stage strategy w
  = Ok (Some r, World.mk
             (<[r := stamped e0 (StrategyElement.ID stage) (Strategy.indexer s1)
                       timing (StrategyElement.starting_lag stage)]>
                (World.elements w1))
             (World.frames w1) (World.strategies w1)).
Proof.
  intros Hget Hstale Htiming Hexec Hr Hs1.
  rewrite (call_miss _ _ _ _ Hget Hstale), Hexec.
  rewrite run_bind, (run_update_element _ _ _ _ Hr).
  set (w2 := World.mk _ _ _).
  rewrite run_bind, (run_get_strategy w2 _ _ Hs1).
  rewrite run_bind, (run_update_element w2 r (Element.with_creator (StrategyElement.ID stage) e0))
    by (simpl; apply lookup_insert_eq).
  set (w3 := World.mk _ _ _).
  rewrite run_bind, run_lift, Htiming.
  rewrite run_bind, (run_update_element w3 r
    (Element.with_indexer (Strategy.indexer s1)
       (Element.with_creator (StrategyElement.ID stage) e0)))
    by (simpl; apply lookup_insert_eq).
  set (w4 := World.mk _ _ _).
  rewrite run_bind, (run_update_element w4 r
    (Element.with_calculation_timing timing
      (Element.with_indexer (Strategy.indexer s1)
       (Element.with_creator (StrategyElement.ID stage) e0))))
    by (simpl; apply lookup_insert_eq).
  rewrite run_ret. subst w4 w3 w2. simpl.
  by rewrite !insert_insert_eq.
Qed.

Lemma signal_get_result id execute strategy w s :
  World.strategies w !! strategy = Some s ->
  StrategyElement.get_result (StrategyElement.SignalElement id execute) strategy w
  = Ok (Strategy.signal s, w).
Proof.
  intros Hs. simpl. by rewrite run_bind, (run_get_strategy _ _ _ Hs).
Qed.

Lemma positions_get_result id execute strategy w s :
  World.strategies w !! strategy = Some s ->
  StrategyElement.get_result (StrategyElement.PositionRuleElement id execute) strategy w
  = Ok (Strategy.positions s, w).
Proof.
  intros Hs. simpl. by rewrite run_bind, (run_get_strategy _ _ _ Hs).
Qed.

(** C3, as the code has it.  On a slot that is empty or holds a result of
    another creator, a signal (position-rule) stage calls [execute] and
    stamps the object it returns with its own identity as creator, timing
    [["decision"]] ([["entry"]]), the timing model of the context and lag
    [starting_lag() = 0], and returns it.  Nothing else changes: the
    slots of the context are as [execute] left them, and storing the
    returned object is up to the caller. *)
Theorem call_stamps_fresh_result id execute strategy w s r w1 e0 s1 :
  World.strategies w !! strategy = Some s ->
  execute strategy w = Ok (r, w1) ->
  World.elements w1 !! r = Some e0 ->
  World.strategies w1 !! strategy = Some s1 ->
  (stale w (Strategy.signal s) id ->
   StrategyElement.call (StrategyElement.SignalElement id execute) strategy w
   = Ok (Some r, World.mk
              (<[r := stamped e0 id (Strategy.indexer s1) ["decision"] 0]>
                 (World.elements w1))
              (World.frames w1) (World.strategies w1)))
  /\ (stale w (Strategy.positions s) id ->
      StrategyElement.call (StrategyElement.PositionRuleElement id execute) strategy w
      = Ok (Some r, World.mk
                 (<[r := stamped e0 id (Strategy.indexer s1) ["entry"] 0]>
                    (World.elements w1))
                 (World.frames w1) (World.strategies w1))).
Proof.
  intros Hs Hexec Hr Hs1. split; intros Hstale.
  - apply (call_miss_stamps (StrategyElement.SignalElement id execute)
             strategy w (Strategy.signal s) r w1 e0 s1 ["decision"]); try done.
    by apply signal_get_result.
  - apply (call_miss_stamps (StrategyElement.PositionRuleElement id execute)
             strategy w (Strategy.positions s) r w1 e0 s1 ["entry"]); try done.
    by apply positions_get_result.
Qed.

(** C4.  When the slot holds an object whose recorded creator is this
    stage's identity, the call returns that very object and leaves the
    store untouched, whatever [execute] is.  When the recorded creator
    differs, [execute] runs: its failure is the call's failure, and
    otherwise the call returns the object [execute] produced, stamped with
    this stage's identity. *)
Theorem call_memoised stage strategy w c ec :
  StrategyElement.get_result stage strategy w = Ok (Some c, w) ->
  World.elements w !! c = Some ec ->
  (Element.creator ec = StrategyElement.ID stage ->
   StrategyElement.call stage strategy w = Ok (Some c, w))
  /\ (Element.creator ec <> StrategyElement.ID stage ->
      (forall err, StrategyElement.execute stage strategy w = Raise err ->
         StrategyElement.call stage strategy w = Raise err)
      /\ (forall r w1 e0 s1 timing,
            StrategyElement.execute stage strategy w = Ok (r, w1) ->
            World.elements w1 !! r = Some e0 ->
            World.strategies w1 !! strategy = Some s1 ->
            StrategyElement.calculation_timing stage = Ok timing ->
            exists w2 e2,
              StrategyElement.call stage strategy w = Ok (Some r, w2)
              /\ World.elements w2 !! r = Some e2
              /\ Element.creator e2 = StrategyElement.ID stage)).
Proof.
  intros Hget Hc. split; [by apply call_hit|]. intros Hne.
  assert (Hstale : stale w (Some c) (StrategyElement.ID stage)) by (by exists ec).
  split.
  - intros err Hexec. by rewrite (call_miss _ _ _ _ Hget Hstale), Hexec.
  - intros r w1 e0 s1 timing Hexec Hr Hs1 Htiming.
    eexists _, _. split.
    + by apply (call_miss_stamps stage strategy w (Some c) r w1 e0 s1 timing).
    + simpl. by rewrite lookup_insert_eq.
Qed.
End stage_facts.

(** ** Filters *)

Section filter_facts.
Context {V C Item : Type} `{Collection.Lawful C Item}.
Implicit Types (w : World.t V C) (p : Item -> bool).

Lemma select_total (condition : Item -> result bool) p (l : list Item) :
  (forall item, condition item = Ok (p item)) ->
  Collection.select condition l = Ok (List.filter p l).
Proof.
  intros Hp. induction l as [|x l IH]; [done|]. simpl.
  rewrite Hp, IH. simpl. by destruct (p x).
Qed.

Lemma filter_sublist p (l : list Item) : sublist (List.filter p l) l.
Proof.
  induction l as [|x l IH]; simpl; [constructor|].
  destruct (p x); by constructor.
Qed.

(** C9.  Calling a filter whose [accepted_trade] is a total predicate [p]
    returns a collection holding exactly the trades of the context that
    [p] accepts, in order: every kept item satisfies [p], every dropped
    item does not, the count does not grow, and the store (hence every
    trade) is unchanged. *)
Theorem filter_call_partitions (self : FilterInterface.t Item) p strategy w s :
  (forall trade, FilterInterface.accepted_trade self trade = Ok (p trade)) ->
  World.strategies w !! strategy = Some s ->
  exists kept,
    FilterInterface.call self strategy w = Ok (kept, w)
    /\ Collection.items kept = List.filter p (Collection.items (Strategy.trades s))
    /\ (forall item, item ∈ Collection.items kept -> p item = true)
    /\ (forall item, item ∈ Collection.items (Strategy.trades s) ->
          item ∉ Collection.items kept -> p item = false)
    /\ (Collection.count kept <= Collection.count (Strategy.trades s))%nat
    /\ sublist (Collection.items kept) (Collection.items (Strategy.trades s)).
Proof.
  intros Hp Hs.
  destruct (Collection.copy_with_ok (Strategy.trades s)
              (List.filter p (Collection.items (Strategy.trades s))))
    as (kept & Hcopy & Hitems).
  exists kept. split.
  { unfold FilterInterface.call.
    rewrite run_bind, (run_get_strategy _ _ _ Hs), run_lift.
    unfold Collection.find.
    rewrite (select_total _ p) by done. simpl. by rewrite Hcopy. }
  split; [done|]. rewrite Hitems. unfold Collection.count. rewrite Hitems.
  repeat split.
  - intros item Hin%list_elem_of_In. by apply filter_In in Hin as [_ ?].
  - intros item Hin Hout. destruct (p item) eqn:Hpi; [|done].
    exfalso. apply Hout, list_elem_of_In, filter_In. split; [|done].
    by apply list_elem_of_In.
  - apply sublist_length, filter_sublist.
  - apply filter_sublist.
Qed.
End filter_facts.


(** ** Market returns *)

Section returns_facts.
Context {V : Type}.
Variable truediv : DataFrame.t V -> DataFrame.t V -> DataFrame.t V.
Variable sub_one : DataFrame.t V -> DataFrame.t V.

Lemma init_fields trade ind idx :
  Indexer.init trade ind = Ok idx ->
  Indexer.trade_timing idx = trade /\ Indexer.ind_timing idx = ind.
Proof.
  intros Hinit. destruct (init_inv _ _ _ Hinit) as [[-> | ->] [-> | ->]];
    unfold Indexer.init in Hinit; simpl in Hinit;
    injection Hinit as <-; done.
Qed.

Lemma entry_exit_lag_checked :
  TimingTable.for_all_indexers (fun idx =>
    match Indexer.get_lag idx "entry" "exit" with
    | Ok lag => lag =? 1
    | Raise _ => false
    end) = true.
Proof. vm_compute. reflexivity. Qed.

(** C10.  For every timing model that passes construction,
    [trade_timing] is not ["OC"], so [market_returns] shifts by exactly
    one period, which is also [get_lag("entry", "exit")]; both operands are
    the same market table. *)
Theorem market_returns_shifts_by_one trade ind idx (market : Market V) :
  Indexer.init trade ind = Ok idx ->
  Indexer.trade_timing idx <> "OC"
  /\ Indexer.market_returns_lag idx = 1
  /\ Indexer.get_lag idx "entry" "exit" = Ok (Indexer.market_returns_lag idx)
  /\ exists table,
       (table = open market \/ table = close market)
       /\ Indexer.market_returns truediv sub_one idx market
          = Ok (sub_one (truediv table (DataFrame.shift 1 table))).
Proof.
  intros Hinit.
  pose proof (for_all_indexers_spec _ _ _ _ entry_exit_lag_checked Hinit) as Hlag.
  cbv beta in Hlag.
  destruct (init_fields _ _ _ Hinit) as [Htrade _].
  assert (Hone : Indexer.market_returns_lag idx = 1).
  { unfold Indexer.market_returns_lag. rewrite Htrade.
    destruct (init_inv _ _ _ Hinit) as [[-> | ->] _]; reflexivity. }
  split; [|split; [done|split]].
  - rewrite Htrade. destruct (init_inv _ _ _ Hinit) as [[-> | ->] _]; discriminate.
  - rewrite Hone. destruct (Indexer.get_lag idx "entry" "exit") as [lag|];
      [|discriminate]. by apply Z.eqb_eq in Hlag as ->.
  - unfold Indexer.market_returns. rewrite Hone, Htrade.
    destruct (init_inv _ _ _ Hinit) as [[-> | ->] _].
    + exists (open market). split; [by left|]. reflexivity.
    + exists (close market). split; [by right|]. reflexivity.
Qed.
End returns_facts.

(** ** The properties on a concrete store *)

Section fixture_facts.
Import Fixture.

#[global] Instance trade_collection_lawful : Collection.Lawful TradeCollection Trade.
Proof. constructor. intros c l. by exists (mkTrades l). Qed.

Lemma label_recognized label :
  bool_decide (PyStr.lower label ∈ Indexer.timing_labels) = true -> recognized label.
Proof. apply bool_decide_eq_true_1. Qed.

Lemma label_listed label :
  bool_decide (label ∈ Indexer.timing_labels) = true ->
  label ∈ Indexer.timing_labels.
Proof. apply bool_decide_eq_true_1. Qed.

Lemma signal_well_formed : well_formed world 1%positive signal_element.
Proof.
  split.
  - reflexivity.
  - eexists. vm_compute. reflexivity.
  - exists "CC", "C". vm_compute. reflexivity.
  - discriminate.
  - apply Forall_cons. split; [|constructor].
    apply label_recognized. vm_compute. reflexivity.
Qed.

Lemma positions_well_formed : well_formed world 2%positive positions_element.
Proof.
  split.
  - reflexivity.
  - eexists. vm_compute. reflexivity.
  - exists "OO", "O". vm_compute. reflexivity.
  - discriminate.
  - apply Forall_cons. split; [|constructor].
    apply label_recognized. vm_compute. reflexivity.
Qed.
End fixture_facts.

Import Fixture.

(** The lag table read at (decision, entry) under close-to-close trading. *)
Lemma get_lag_table_witness :
  exists bucket_start bucket_end lag,
    Indexer.convert_timing (indexer_of "CC" "C") "decision" = Ok bucket_start
    /\ Indexer.convert_timing (indexer_of "CC" "C") "entry" = Ok bucket_end
    /\ Indexer.get_lag (indexer_of "CC" "C") "decision" "entry" = Ok lag
    /\ (lag = 0 <-> bucket_start = "O" /\ bucket_end = "C")
    /\ (lag <> 0 -> lag = 1).
Proof.
  apply (get_lag_table "CC" "C").
  - vm_compute. reflexivity.
  - apply label_listed. vm_compute. reflexivity.
  - apply label_listed. vm_compute. reflexivity.
Defined.

(** The signal aligned with the positions of the concrete store. *)
Lemma align_with_total_lag_witness :
  well_formed world 1%positive signal_element
  /\ well_formed world 2%positive positions_element
  /\ exists start target alignment_lag,
       PyList.last (Element.calculation_timing signal_element) = Ok start
       /\ PyList.first (Element.calculation_timing positions_element) = Ok target
       /\ Indexer.get_lag (Element.indexer signal_element) start target
          = Ok alignment_lag
       /\ let total_lag := alignment_lag + Element.lag positions_element in
          exists aligned w',
            DataElement.align_with (H := pandas) 1%positive 2%positive world
            = Ok (aligned, w')
            /\ DataElement.shift (H := pandas) 1%positive total_lag world
               = Ok (aligned, w')
            /\ lag_of w' aligned = Some (Element.lag signal_element + total_lag)
            /\ data_of w' aligned
               = DataFrame.shift total_lag <$> data_of world 1%positive.
Proof.
  split; [exact signal_well_formed|]. split; [exact positions_well_formed|].
  apply (align_with_total_lag (H := pandas) world 1%positive 2%positive
           signal_element positions_element).
  - exact signal_well_formed.
  - exact positions_well_formed.
Defined.

(** Shifting the signal by 1 and then 2, against shifting it by 3. *)
Lemma shift_shift_additive_witness :
  exists y w1 z w2 s w3,
    DataElement.shift (H := pandas) 1%positive 1 world = Ok (y, w1)
    /\ DataElement.shift (H := pandas) y 2 w1 = Ok (z, w2)
    /\ DataElement.shift (H := pandas) 1%positive (1 + 2) w2 = Ok (s, w3)
    /\ data_of w3 z = Some (DataFrame.shift (1 + 2) levels)
    /\ data_of w3 s = Some (DataFrame.shift (1 + 2) levels)
    /\ lag_of w3 z = Some (Element.lag signal_element + (1 + 2))
    /\ lag_of w3 s = Some (Element.lag signal_element + (1 + 2)).
Proof.
  apply (shift_shift_additive (H := pandas) world 1%positive signal_element levels 1 2).
  - reflexivity.
  - vm_compute. reflexivity.
  - lia.
  - lia.
Defined.

(** Shifting the signal by 0 still yields a buffer of its own. *)
Lemma shift_leaves_receiver_witness :
  exists y ey w',
    DataElement.shift (H := pandas) 1%positive 0 world = Ok (y, w')
    /\ World.elements w' !! y = Some ey
    /\ World.elements w' !! 1%positive = Some signal_element
    /\ World.frames w' !! Element.data signal_element = Some levels
    /\ y <> 1%positive
    /\ Element.data ey <> Element.data signal_element
    /\ World.frames world !! Element.data ey = None
    /\ (forall t, data_of (World.write_frame (Element.data ey) t w') 1%positive
                  = Some levels)
    /\ (forall t, data_of (World.write_frame (Element.data signal_element) t w') y
                  = data_of w' y).
Proof.
  apply (shift_leaves_receiver (H := pandas) world 1%positive signal_element levels 0).
  - reflexivity.
  - vm_compute. reflexivity.
Defined.

(** The three alignment operations on the signal of the concrete store. *)
Lemma lag_stays_nonnegative_witness :
  (exists y w' lag, DataElement.at_ (H := pandas) 1%positive "Exit" world = Ok (y, w')
      /\ lag_of w' y = Some lag /\ 0 <= lag)
  /\ (exists y w' lag,
        DataElement.align_with (H := pandas) 1%positive 2%positive world = Ok (y, w')
        /\ lag_of w' y = Some lag /\ 0 <= lag)
  /\ (exists y w' lag, DataElement.shift (H := pandas) 1%positive 3 world = Ok (y, w')
        /\ lag_of w' y = Some lag /\ 0 <= lag).
Proof.
  apply (lag_stays_nonnegative (H := pandas) world 1%positive signal_element
           2%positive positions_element "Exit" 3).
  - exact signal_well_formed.
  - simpl. lia.
  - apply label_recognized. vm_compute. reflexivity.
  - exact positions_well_formed.
  - simpl. lia.
  - lia.
Defined.

(** C6 fails as stated: aligning the signal with positions that carry a
    different timing model raises nothing and returns a shifted object. *)
Lemma align_with_accepts_other_timing_model :
  Element.indexer signal_element <> Element.indexer positions_element
  /\ exists aligned w',
       DataElement.align_with (H := pandas) 1%positive 2%positive world
       = Ok (aligned, w')
       /\ lag_of w' aligned = Some 2
       /\ data_of w' aligned = Some (DataFrame.shift 2 levels).
Proof.
  split.
  - intros Heq. apply (f_equal Indexer.trade_timing) in Heq. vm_compute in Heq.
    discriminate.
  - eexists _, _. split; [vm_compute; reflexivity|].
    split; vm_compute; reflexivity.
Qed.

(** Swapping the timing model of the positions for the signal's own. *)
Lemma align_with_ignores_other_indexer_witness :
  exists start target alignment_lag df,
    PyList.last (Element.calculation_timing signal_element) = Ok start
    /\ PyList.first (Element.calculation_timing positions_element) = Ok target
    /\ Indexer.get_lag (Element.indexer signal_element) start target
       = Ok alignment_lag
    /\ World.frames world !! Element.data signal_element = Some df
    /\ let total_lag := alignment_lag + Element.lag positions_element in
       exists aligned w1 aligned' w1',
         DataElement.align_with (H := pandas) 1%positive 2%positive world
         = Ok (aligned, w1)
         /\ DataElement.align_with (H := pandas) 1%positive 2%positive
              (World.mk (<[2%positive := Element.with_indexer (indexer_of "CC" "C")
                                            positions_element]>
                           (World.elements world))
                 (World.frames world) (World.strategies world))
            = Ok (aligned', w1')
         /\ DataElement.shift (H := pandas) 1%positive total_lag world
            = Ok (aligned, w1)
         /\ DataElement.shift (H := pandas) 1%positive total_lag
              (World.mk (<[2%positive := Element.with_indexer (indexer_of "CC" "C")
                                            positions_element]>
                           (World.elements world))
                 (World.frames world) (World.strategies world))
            = Ok (aligned', w1')
         /\ lag_of w1 aligned = Some (Element.lag signal_element + total_lag)
         /\ data_of w1 aligned = Some (DataFrame.shift total_lag df)
         /\ lag_of w1' aligned' = lag_of w1 aligned
         /\ data_of w1' aligned' = data_of w1 aligned
         /\ is_Some (data_of w1 aligned).
Proof.
  apply (align_with_ignores_other_indexer (H := pandas) world 1%positive 2%positive
           signal_element positions_element (indexer_of "CC" "C")).
  - exact signal_well_formed.
  - reflexivity.
  - discriminate.
  - discriminate.
  - apply Forall_cons. split; [|constructor].
    apply label_recognized. vm_compute. reflexivity.
Defined.

(** C3 fails as stated: after a signal stage has run on a context with an
    empty signal slot, the slot is still empty. *)
Lemma call_leaves_slot_unwritten :
  exists r w',
    StrategyElement.call (StrategyElement.SignalElement 7 crossover_execute)
      2%positive world = Ok (Some r, w')
    /\ (Strategy.signal <$> World.strategies world !! 2%positive) = Some None
    /\ (Strategy.signal <$> World.strategies w' !! 2%positive) = Some None
    /\ (Strategy.signal <$> World.strategies w' !! 2%positive) <> Some (Some r).
Proof.
  eexists _, _. split; [vm_compute; reflexivity|].
  split; [vm_compute; reflexivity|]. split; [vm_compute; reflexivity|].
  vm_compute. discriminate.
Qed.

(** A first run of stage 7 on the strategy that has run nothing yet. *)
Lemma call_stamps_fresh_result_witness :
  StrategyElement.call (StrategyElement.SignalElement 7 crossover_execute)
    2%positive world
  = Ok (Some 3%positive,
        World.mk
          (<[3%positive := stamped unstamped 7 (indexer_of "CC" "C") ["decision"] 0]>
             (World.elements world_executed))
          (World.frames world_executed) (World.strategies world_executed))
  /\ StrategyElement.call (StrategyElement.PositionRuleElement 7 crossover_execute)
       2%positive world
     = Ok (Some 3%positive,
           World.mk
             (<[3%positive := stamped unstamped 7 (indexer_of "CC" "C") ["entry"] 0]>
                (World.elements world_executed))
             (World.frames world_executed) (World.strategies world_executed)).
Proof.
  destruct (call_stamps_fresh_result 7 crossover_execute 2%positive world
              (Strategy.mk None None (indexer_of "CC" "C") book)
              3%positive world_executed unstamped
              (Strategy.mk None None (indexer_of "CC" "C") book))
    as [Hsignal Hpositions].
  - reflexivity.
  - vm_compute. reflexivity.
  - reflexivity.
  - reflexivity.
  - split; [apply Hsignal | apply Hpositions]; exact I.
Defined.

(** Stage 7 finds its own signal cached; stage 9 recomputes. *)
Lemma call_memoised_witness :
  StrategyElement.call (StrategyElement.SignalElement 7 crossover_execute)
    1%positive world = Ok (Some 1%positive, world)
  /\ exists w2 e2,
       StrategyElement.call (StrategyElement.SignalElement 9 crossover_execute)
         1%positive world = Ok (Some 3%positive, w2)
       /\ World.elements w2 !! 3%positive = Some e2
       /\ Element.creator e2 = 9.
Proof.
  split.
  - apply (call_memoised (StrategyElement.SignalElement 7 crossover_execute)
             1%positive world 1%positive signal_element); reflexivity.
  - apply (call_memoised (StrategyElement.SignalElement 9 crossover_execute)
             1%positive world 1%positive signal_element)
      with (w1 := world_executed) (e0 := unstamped) (timing := ["decision"])
           (s1 := Strategy.mk (Some 1%positive) (Some 2%positive)
                    (indexer_of "CC" "C") book).
    + reflexivity.
    + reflexivity.
    + simpl. lia.
    + vm_compute. reflexivity.
    + reflexivity.
    + reflexivity.
    + reflexivity.
Defined.

(** Keeping the profitable trades of the book. *)
Lemma filter_call_partitions_witness :
  exists kept,
    FilterInterface.call winners 1%positive world = Ok (kept, world)
    /\ Collection.items kept
       = List.filter (fun trade => 0 <? profit trade) (Collection.items book)
    /\ (forall item, item ∈ Collection.items kept -> (0 <? profit item) = true)
    /\ (forall item, item ∈ Collection.items book ->
          item ∉ Collection.items kept -> (0 <? profit item) = false)
    /\ (Collection.count kept <= Collection.count book)%nat
    /\ sublist (Collection.items kept) (Collection.items book).
Proof.
  apply (filter_call_partitions (V := Z) winners (fun trade => 0 <? profit trade)
           1%positive world
           (Strategy.mk (Some 1%positive) (Some 2%positive) (indexer_of "CC" "C") book)).
  - intros trade. reflexivity.
  - reflexivity.
Defined.

(** Open-to-open returns on the concrete market. *)
Lemma market_returns_shifts_by_one_witness :
  Indexer.trade_timing (indexer_of "OO" "C") <> "OC"
  /\ Indexer.market_returns_lag (indexer_of "OO" "C") = 1
  /\ Indexer.get_lag (indexer_of "OO" "C") "entry" "exit"
     = Ok (Indexer.market_returns_lag (indexer_of "OO" "C"))
  /\ exists table,
       (table = open market \/ table = close market)
       /\ Indexer.market_returns truediv sub_one (indexer_of "OO" "C") market
          = Ok (sub_one (truediv table (DataFrame.shift 1 table))).
Proof.
  apply (market_returns_shifts_by_one truediv sub_one "OO" "C").
  vm_compute. reflexivity.
Defined.

(** * Further properties of the code *)

(** ** The timing model, beyond the lag table *)

Section timing_extras.
Import TimingTable.

(** X1.  [Indexer.__init__] succeeds exactly for a trade timing among
    OO, CC and an indicator timing among O, C, keeping both as given.  A bad
    trade timing is reported first; a bad indicator timing only once the
    trade timing is fine. *)
Theorem init_accepts_exactly trade ind :
  (trade ∈ ["OO"; "CC"] -> ind ∈ ["O"; "C"] ->
   exists idx, Indexer.init trade ind = Ok idx
     /\ Indexer.trade_timing idx = trade /\ Indexer.ind_timing idx = ind)
  /\ (trade ∉ ["OO"; "CC"] ->
      Indexer.init trade ind
      = Raise (ValueError "Trade timing must be one of: 'OO', 'CC'."))
  /\ (trade ∈ ["OO"; "CC"] -> ind ∉ ["O"; "C"] ->
      Indexer.init trade ind
      = Raise (ValueError "Ind_timing must be one of: 'O', 'C'")).
Proof.
  unfold Indexer.init. split; [|split].
  - intros Ht Hi. rewrite !elem_of_cons, elem_of_nil in Ht, Hi.
    destruct Ht as [-> | [-> | []]]; destruct Hi as [-> | [-> | []]];
      eexists; (split; [reflexivity|split; reflexivity]).
  - intros Ht. by rewrite decide_False.
  - intros Ht Hi. by rewrite decide_True, decide_False.
Qed.

Lemma init_timing_map trade ind idx :
  Indexer.init trade ind = Ok idx ->
  exists bucket,
    (trade = "OO" /\ bucket = "O" \/ trade = "CC" /\ bucket = "C")
    /\ (ind = "O" \/ ind = "C")
    /\ Indexer.trade_timing idx = trade
    /\ Indexer.ind_timing idx = ind
    /\ Indexer.timing_map idx
       = <["close" := "C"]> (<["open" := "O"]> (<["exit" := bucket]>
           (<["entry" := bucket]> (<["decision" := ind]> ∅)))).
Proof.
  intros Hinit. destruct (init_inv _ _ _ Hinit) as [[-> | ->] Hind].
  - exists "O". destruct Hind as [-> | ->];
      unfold Indexer.init in Hinit; simpl in Hinit; injection Hinit as <-;
      simpl; tauto.
  - exists "C". destruct Hind as [-> | ->];
      unfold Indexer.init in Hinit; simpl in Hinit; injection Hinit as <-;
      simpl; tauto.
Qed.

(** X2.  Under a constructed timing model, decision converts to the
    indicator timing, entry and exit to the first and last character of the
    trade timing (always the same bucket), open to O and close to C. *)
Theorem convert_timing_table trade ind idx :
  Indexer.init trade ind = Ok idx ->
  Indexer.convert_timing idx "decision" = Ok ind
  /\ Indexer.convert_timing idx "entry" = PyStr.first trade
  /\ Indexer.convert_timing idx "exit" = PyStr.last trade
  /\ Indexer.convert_timing idx "entry" = Indexer.convert_timing idx "exit"
  /\ Indexer.convert_timing idx "open" = Ok "O"
  /\ Indexer.convert_timing idx "close" = Ok "C".
Proof.
  intros Hinit.
  destruct (init_timing_map _ _ _ Hinit) as (b & Hb & _ & _ & _ & Hmap).
  unfold Indexer.convert_timing. rewrite Hmap.
  destruct Hb as [[-> ->] | [-> ->]]; repeat split; reflexivity.
Qed.

Lemma convert_timing_cases trade ind idx label :
  Indexer.init trade ind = Ok idx ->
  (recognized label ->
   exists bucket, Indexer.convert_timing idx label = Ok bucket
     /\ (bucket = "O" \/ bucket = "C"))
  /\ (~ recognized label ->
      Indexer.convert_timing idx label
      = Raise (ValueError "Timing must be one of: decision,entry,exit,open,close")).
Proof.
  intros Hinit.
  destruct (init_timing_map _ _ _ Hinit) as (b & Hb & Hind & _ & _ & Hmap).
  unfold recognized, Indexer.timing_labels, Indexer.convert_timing. rewrite Hmap.
  assert (Hbucket : b = "O" \/ b = "C") by (destruct Hb as [[_ ->] | [_ ->]]; auto).
  split.
  - intros Hrec. rewrite !elem_of_cons, elem_of_nil in Hrec.
    destruct Hrec as [-> | [-> | [-> | [-> | [-> | []]]]]].
    + exists ind. by split.
    + exists b. by split.
    + exists b. by split.
    + exists "O". split; [done|by left].
    + exists "C". split; [done|by right].
  - intros Hnot. rewrite !not_elem_of_cons in Hnot.
    destruct Hnot as (? & ? & ? & ? & ? & _).
    by rewrite !lookup_insert_ne, lookup_empty by done.
Qed.

(** X3.  Under a constructed timing model, [convert_timing] accepts exactly
    the five labels, in any letter case, and answers O or C; any other
    string raises the [ValueError] that lists the labels. *)
Theorem convert_timing_recognizes trade ind idx label :
  Indexer.init trade ind = Ok idx ->
  (recognized label ->
   exists bucket, Indexer.convert_timing idx label = Ok bucket
     /\ (bucket = "O" \/ bucket = "C"))
  /\ (~ recognized label ->
      Indexer.convert_timing idx label
      = Raise (ValueError "Timing must be one of: decision,entry,exit,open,close")).
Proof. apply convert_timing_cases. Qed.

(** X4.  Under a constructed timing model, [get_lag] returns a lag when
    both labels are recognised and raises the [ValueError] of
    [convert_timing] as soon as one of them is not. *)
Theorem get_lag_fails_exactly trade ind idx start end_ :
  Indexer.init trade ind = Ok idx ->
  (recognized start /\ recognized end_ ->
   exists lag, Indexer.get_lag idx start end_ = Ok lag)
  /\ (~ (recognized start /\ recognized end_) ->
      Indexer.get_lag idx start end_
      = Raise (ValueError "Timing must be one of: decision,entry,exit,open,close")).
Proof.
  intros Hinit. split.
  - intros [Hs He].
    destruct (get_lag_total _ _ _ _ _ Hinit Hs He) as (lag & Hlag & _). by exists lag.
  - intros Hnot. unfold Indexer.get_lag.
    destruct (decide (recognized start)) as [Hs|Hs].
    + destruct (decide (recognized end_)) as [He|He]; [tauto|].
      destruct (convert_timing_cases _ _ _ start Hinit) as [Hok _].
      destruct (Hok Hs) as (b & -> & _).
      destruct (convert_timing_cases _ _ _ end_ Hinit) as [_ Herr].
      by rewrite (Herr He).
    + destruct (convert_timing_cases _ _ _ start Hinit) as [_ Herr].
      by rewrite (Herr Hs).
Qed.

Lemma lag_direction_checked :
  for_all_indexers (fun idx =>
    for_all_labels (fun a =>
      for_all_labels (fun b =>
        match Indexer.get_lag idx a b, Indexer.get_lag idx b a,
              Indexer.get_lag idx a a with
        | Ok ab, Ok ba, Ok aa => (aa =? 1) && ((ab =? 1) || (ba =? 1))
        | _, _, _ => false
        end))) = true.
Proof. vm_compute. reflexivity. Qed.

Lemma lag_direction trade ind idx a b :
  Indexer.init trade ind = Ok idx ->
  recognized a -> recognized b ->
  Indexer.get_lag idx a a = Ok 1
  /\ (Indexer.get_lag idx a b = Ok 0 -> Indexer.get_lag idx b a = Ok 1).
Proof.
  unfold recognized. intros Hinit Ha Hb.
  pose proof (for_all_indexers_spec _ _ _ _ lag_direction_checked Hinit) as H1.
  cbv beta in H1.
  pose proof (for_all_labels_spec
    (fun a => for_all_labels (fun b =>
       match Indexer.get_lag idx a b, Indexer.get_lag idx b a,
             Indexer.get_lag idx a a with
       | Ok ab, Ok ba, Ok aa => (aa =? 1) && ((ab =? 1) || (ba =? 1))
       | _, _, _ => false
       end)) _ H1 Ha) as H2. cbv beta in H2.
  pose proof (for_all_labels_spec _ _ H2 Hb) as H3. cbv beta in H3.
  rewrite !get_lag_lower in H3.
  destruct (Indexer.get_lag idx a b) as [ab|]; [|discriminate].
  destruct (Indexer.get_lag idx b a) as [ba|]; [|discriminate].
  destruct (Indexer.get_lag idx a a) as [aa|]; [|discriminate].
  apply andb_true_iff in H3 as [Haa Hor]. apply Z.eqb_eq in Haa as ->.
  split; [done|]. intros [= ->]. simpl in Hor. by apply Z.eqb_eq in Hor as ->.
Qed.

(** X5.  A label lags itself by one period, and two labels never have lag 0
    in both directions: if [get_lag(a, b)] is 0 then [get_lag(b, a)] is 1. *)
Theorem get_lag_one_way trade ind idx a b :
  Indexer.init trade ind = Ok idx ->
  recognized a -> recognized b ->
  Indexer.get_lag idx a a = Ok 1
  /\ (Indexer.get_lag idx a b = Ok 0 -> Indexer.get_lag idx b a = Ok 1).
Proof. apply lag_direction. Qed.

(** X6.  Since only OO and CC pass construction, entry and exit are
    interchangeable in [get_lag], on either side and against any string
    (recognised or not). *)
Theorem entry_exit_interchangeable trade ind idx label :
  Indexer.init trade ind = Ok idx ->
  Indexer.get_lag idx "entry" label = Indexer.get_lag idx "exit" label
  /\ Indexer.get_lag idx label "entry" = Indexer.get_lag idx label "exit".
Proof.
  intros Hinit.
  destruct (init_timing_map _ _ _ Hinit) as (b & _ & _ & _ & _ & Hmap).
  assert (Hentry : Indexer.convert_timing idx "entry" = Ok b).
  { unfold Indexer.convert_timing. by rewrite Hmap. }
  assert (Hexit : Indexer.convert_timing idx "exit" = Ok b).
  { unfold Indexer.convert_timing. by rewrite Hmap. }
  unfold Indexer.get_lag. by rewrite Hentry, Hexit.
Qed.
End timing_extras.


(** ** Data elements, beyond alignment *)

Section frame_extras.
Context {V : Type}.
Implicit Types (rows : list (list (option V))) (nan : list (option V)).

Lemma shift_rows_back (p : nat) nan rows :
  DataFrame.shift_rows (- Z.of_nat p) nan
    (DataFrame.shift_rows (Z.of_nat p) nan rows)
  = (take (length rows - p) rows ++ replicate (length rows `min` p) nan)%list.
Proof.
  destruct p as [|p].
  { simpl. rewrite !shift_rows_zero, Nat.sub_0_r, Nat.min_0_r, take_ge by lia.
    simpl. by rewrite app_nil_r. }
  rewrite shift_rows_nonneg. unfold DataFrame.shift_rows.
  destruct (Z.leb_spec 0 (- Z.of_nat (S p))); [lia|].
  rewrite Z.opp_involutive, Nat2Z.id.
  rewrite length_take, length_app, length_replicate.
  replace (length rows `min` (S p + length rows))%nat with (length rows) by lia.
  f_equal. rewrite take_app, take_replicate, length_replicate.
  rewrite drop_app, drop_replicate, length_replicate.
  replace (length rows `min` S p - S p)%nat with 0%nat by lia. simpl.
  destruct (decide (length rows <= S p)%nat).
  - replace (length rows - S p)%nat with 0%nat by lia.
    rewrite take_0. simpl. by rewrite drop_nil.
  - replace (S p - length rows `min` S p)%nat with 0%nat by lia. by rewrite drop_0.
Qed.
End frame_extras.

Section element_extras.
Context {V C : Type} `{Pandas}.
Implicit Types (w : World.t V C).

Lemma index_run w x e df :
  World.elements w !! x = Some e ->
  World.frames w !! Element.data e = Some df ->
  DataElement.index x w = Ok (DataFrame.index df, w)
  /\ DataElement.tickers x w = Ok (DataFrame.columns df, w).
Proof.
  intros Hx Hdf. unfold DataElement.index, DataElement.tickers.
  by rewrite !run_bind, (run_get_element _ _ _ Hx), !run_bind,
    (run_get_frame _ _ _ Hdf), !run_ret.
Qed.

(** X7.  For any integer [p], also a negative one, [shift(p)] returns an
    object with lag [lag + p] that keeps the creator, the calculation timing
    and the timing model of the receiver, and whose table has the same
    index, the same tickers and the same number of rows. *)
Theorem shift_keeps_labels_and_stamps w x e df p :
  World.elements w !! x = Some e ->
  World.frames w !! Element.data e = Some df ->
  exists y ey w',
    DataElement.shift x p w = Ok (y, w')
    /\ World.elements w' !! y = Some ey
    /\ Element.lag ey = Element.lag e + p
    /\ Element.creator ey = Element.creator e
    /\ Element.calculation_timing ey = Element.calculation_timing e
    /\ Element.indexer ey = Element.indexer e
    /\ DataElement.index y w' = DataElement.index x w'
    /\ DataElement.tickers y w' = DataElement.tickers x w'
    /\ (exists labels, DataElement.index y w' = Ok (labels, w'))
    /\ (length <$> (DataFrame.values <$> data_of w' y)
        = length <$> (DataFrame.values <$> data_of w x)).
Proof.
  intros Hx Hdf.
  destruct (shift_observed w x e df p Hx Hdf)
    as (y & ey & w' & Hrun & Hy & Hey & Hfy & _ & _ & Hext).
  exists y, ey, w'. do 2 (split; [done|]).
  pose proof (ext_elements _ _ Hext _ _ Hx) as Hx'.
  pose proof (ext_frames _ _ Hext _ _ Hdf) as Hdf'.
  destruct (index_run w' y ey _ Hy Hfy) as [-> ->].
  destruct (index_run w' x e _ Hx' Hdf') as [-> ->].
  rewrite (observed_data_of _ _ _ Hy), Hfy, (observed_data_of _ _ _ Hx), Hdf.
  rewrite Hey. simpl. repeat split; eauto.
  by rewrite shift_rows_length.
Qed.

(** X8.  [shift(0)] returns another object with the same lag and an equal
    table, and the receiver still has its lag and table. *)
Theorem shift_zero_is_equal_copy w x e df :
  World.elements w !! x = Some e ->
  World.frames w !! Element.data e = Some df ->
  exists y w',
    DataElement.shift x 0 w = Ok (y, w')
    /\ y <> x
    /\ lag_of w' y = Some (Element.lag e)
    /\ data_of w' y = Some df
    /\ lag_of w' x = Some (Element.lag e)
    /\ data_of w' x = Some df.
Proof.
  intros Hx Hdf.
  destruct (shift_observed w x e df 0 Hx Hdf)
    as (y & ey & w' & Hrun & Hy & Hey & Hfy & _ & Hynew & Hext).
  exists y, w'. split; [done|]. split; [congruence|].
  pose proof (ext_elements _ _ Hext _ _ Hx) as Hx'.
  pose proof (ext_frames _ _ Hext _ _ Hdf) as Hdf'.
  rewrite (observed_lag_of _ _ _ Hy), (observed_data_of _ _ _ Hy), Hfy.
  rewrite (observed_lag_of _ _ _ Hx'), (observed_data_of _ _ _ Hx'), Hdf'.
  rewrite shift_zero, Hey. simpl. repeat split; f_equal; lia.
Qed.

(** X9.  Shifting by [p >= 0] and then by [-p] restores the lag but not the
    table: the rows pushed off the end are gone, so the last [min(p, n)] of
    the [n] rows come back missing. *)
Theorem shift_there_and_back w x e df p :
  World.elements w !! x = Some e ->
  World.frames w !! Element.data e = Some df ->
  0 <= p ->
  exists y w1 z w2,
    DataElement.shift x p w = Ok (y, w1)
    /\ DataElement.shift y (- p) w1 = Ok (z, w2)
    /\ lag_of w2 z = Some (Element.lag e)
    /\ data_of w2 z
       = Some (DataFrame.mk (DataFrame.index df) (DataFrame.columns df)
                 (take (length (DataFrame.values df) - Z.to_nat p)
                       (DataFrame.values df)
                  ++ replicate (length (DataFrame.values df) `min` Z.to_nat p)
                       (DataFrame.nan_row df))%list).
Proof.
  intros Hx Hdf Hp.
  destruct (shift_observed w x e df p Hx Hdf)
    as (y & ey & w1 & Hrun1 & Hy & Hey & Hfy & _ & _ & _).
  destruct (shift_observed w1 y ey _ (- p) Hy Hfy)
    as (z & ez & w2 & Hrun2 & Hz & Hez & Hfz & _ & _ & _).
  exists y, w1, z, w2. do 2 (split; [done|]).
  rewrite (observed_lag_of _ _ _ Hz), (observed_data_of _ _ _ Hz), Hfz.
  split.
  - rewrite Hez, Hey. simpl. f_equal. lia.
  - f_equal. unfold DataFrame.shift at 1. simpl. f_equal.
    unfold DataFrame.nan_row. simpl.
    rewrite <- (Z2Nat.id p) at 1 2 by lia. apply shift_rows_back.
Qed.

(** X10.  Asking a well-formed object for itself at its own (last)
    calculation timing shifts it by exactly one period. *)
Theorem at_own_timing_shifts_by_one w x e :
  well_formed w x e ->
  exists label,
    PyList.last (Element.calculation_timing e) = Ok label
    /\ DataElement.at_ x label w = DataElement.shift x 1 w
    /\ exists y w', DataElement.at_ x label w = Ok (y, w')
         /\ lag_of w' y = Some (Element.lag e + 1).
Proof.
  intros [Hx [df Hdf] (trade & ind & Hinit) Hne Hrec].
  destruct (last_recognized _ Hne Hrec) as (label & Hlast & Hr).
  destruct (lag_direction _ _ _ label label Hinit Hr Hr) as [Hsame _].
  exists label. split; [done|].
  rewrite (at_run w x e label label 1 Hx Hlast Hsame). split; [done|].
  destruct (shift_observed w x e df 1 Hx Hdf)
    as (y & ey & w' & Hrun & Hy & Hey & _).
  exists y, w'. split; [done|].
  rewrite (observed_lag_of _ _ _ Hy), Hey. done.
Qed.

Lemma get_lag_unrecognized_end trade ind idx start end_ :
  Indexer.init trade ind = Ok idx ->
  recognized start -> ~ recognized end_ ->
  Indexer.get_lag idx start end_
  = Raise (ValueError "Timing must be one of: decision,entry,exit,open,close").
Proof.
  intros Hinit Hs He. unfold Indexer.get_lag.
  destruct (convert_timing_cases _ _ _ start Hinit) as [Hok _].
  destruct (Hok Hs) as (b & -> & _).
  destruct (convert_timing_cases _ _ _ end_ Hinit) as [_ Herr].
  by rewrite (Herr He).
Qed.

(** X11.  [at] and [align_with] raise [IndexError] when the calculation
    timing they index is empty (the receiver's for [at], the other's and
    then the receiver's for [align_with]), and the [ValueError] of
    [convert_timing] when the requested timing, or the first timing of the
    other object, is not a recognised label. *)
Theorem alignment_errors w x other e o timing :
  World.elements w !! x = Some e ->
  World.elements w !! other = Some o ->
  (Element.calculation_timing e = [] ->
   DataElement.at_ x timing w = Raise IndexError)
  /\ (Element.calculation_timing o = [] ->
      DataElement.align_with x other w = Raise IndexError)
  /\ (Element.calculation_timing o <> [] -> Element.calculation_timing e = [] ->
      DataElement.align_with x other w = Raise IndexError)
  /\ ((exists trade ind, Indexer.init trade ind = Ok (Element.indexer e)) ->
      Element.calculation_timing e <> [] ->
      Forall recognized (Element.calculation_timing e) ->
      (~ recognized timing ->
       DataElement.at_ x timing w
       = Raise (ValueError "Timing must be one of: decision,entry,exit,open,close"))
      /\ (forall target, PyList.first (Element.calculation_timing o) = Ok target ->
          ~ recognized target ->
          DataElement.align_with x other w
          = Raise (ValueError
                     "Timing must be one of: decision,entry,exit,open,close"))).
Proof.
  intros Hx Ho.
  assert (Hempty : forall target, Element.calculation_timing e = [] ->
            DataElement.get_lag x target w = Raise IndexError).
  { intros target He. unfold DataElement.get_lag.
    by rewrite run_bind, (run_get_element _ _ _ Hx), run_bind, run_lift, He. }
  assert (Hbad : forall target,
            (exists trade ind, Indexer.init trade ind = Ok (Element.indexer e)) ->
            Element.calculation_timing e <> [] ->
            Forall recognized (Element.calculation_timing e) ->
            ~ recognized target ->
            DataElement.get_lag x target w
            = Raise (ValueError
                       "Timing must be one of: decision,entry,exit,open,close")).
  { intros target (trade & ind & Hinit) Hne Hrec Hnot.
    destruct (last_recognized _ Hne Hrec) as (start & Hlast & Hr).
    unfold DataElement.get_lag.
    rewrite run_bind, (run_get_element _ _ _ Hx), run_bind, run_lift, Hlast.
    by rewrite run_lift, (get_lag_unrecognized_end _ _ _ _ _ Hinit Hr Hnot). }
  split; [|split; [|split]].
  - intros He. unfold DataElement.at_. by rewrite run_bind, Hempty.
  - intros Hoe. unfold DataElement.align_with.
    by rewrite run_bind, (run_get_element _ _ _ Ho), run_bind, run_lift, Hoe.
  - intros Hoe He. unfold DataElement.align_with.
    rewrite run_bind, (run_get_element _ _ _ Ho), run_bind, run_lift.
    destruct (Element.calculation_timing o) as [|target rest]; [done|]. simpl.
    by rewrite run_bind, Hempty.
  - intros Hidx Hne Hrec. split.
    + intros Hnot. unfold DataElement.at_. by rewrite run_bind, Hbad.
    + intros target Hfirst Hnot. unfold DataElement.align_with.
      rewrite run_bind, (run_get_element _ _ _ Ho), run_bind, run_lift, Hfirst.
      by rewrite run_bind, Hbad.
Qed.

(** X12.  For an [other] with non-negative lag, [self.align_with(other)] has
    the lag and table of [self.at(other.calculation_timing[0])] shifted
    further by [other.lag]. *)
Theorem align_with_is_at_then_shift w self other s o :
  well_formed w self s -> well_formed w other o ->
  0 <= Element.lag o ->
  exists target y w1 z w2 a w3,
    PyList.first (Element.calculation_timing o) = Ok target
    /\ DataElement.at_ self target w = Ok (y, w1)
    /\ DataElement.shift y (Element.lag o) w1 = Ok (z, w2)
    /\ DataElement.align_with self other w2 = Ok (a, w3)
    /\ lag_of w3 z = lag_of w3 a
    /\ data_of w3 z = data_of w3 a
    /\ is_Some (data_of w3 a).
Proof.
  intros [Hs [df Hdf] Hidx Hne Hrec] [Ho _ _ Hneo Hreco] Hlag.
  destruct (align_with_observed w self other s o df Hs Hdf Hidx Hne Hrec Ho Hneo Hreco)
    as (start & target & lag & Hstart & Htarget & Hl & Hrange & _).
  destruct (shift_observed w self s df lag Hs Hdf)
    as (y & ey & w1 & Hrun1 & Hy & Hey & Hfy & _ & _ & Hext1).
  destruct (shift_observed w1 y ey _ (Element.lag o) Hy Hfy)
    as (z & ez & w2 & Hrun2 & Hz & Hez & Hfz & _ & _ & Hext2).
  assert (Hs2 : World.elements w2 !! self = Some s)
    by apply (ext_elements _ _ Hext2), (ext_elements _ _ Hext1), Hs.
  assert (Ho2 : World.elements w2 !! other = Some o)
    by apply (ext_elements _ _ Hext2), (ext_elements _ _ Hext1), Ho.
  assert (Hdf2 : World.frames w2 !! Element.data s = Some df)
    by apply (ext_frames _ _ Hext2), (ext_frames _ _ Hext1), Hdf.
  destruct (shift_observed w2 self s df (lag + Element.lag o) Hs2 Hdf2)
    as (a & ea & w3 & Hrun3 & Ha & Hea & Hfa & _ & _ & Hext3).
  exists target, y, w1, z, w2, a, w3. split; [done|].
  split; [by rewrite (at_run w self s start target lag Hs Hstart Hl)|].
  split; [done|].
  split; [by rewrite (align_with_run w2 self other s o start target lag
                        Hs2 Ho2 Hstart Htarget Hl)|].
  assert (Hz3 : World.elements w3 !! z = Some ez)
    by apply (ext_elements _ _ Hext3), Hz.
  rewrite (observed_lag_of _ _ _ Hz3), (observed_lag_of _ _ _ Ha).
  rewrite (observed_data_of _ _ _ Hz3), (observed_data_of _ _ _ Ha).
  rewrite (ext_frames _ _ Hext3 _ _ Hfz), Hfa.
  rewrite shift_compose by lia. split; [|split; [done|by eexists]].
  rewrite Hez, Hea, Hey. simpl. f_equal. lia.
Qed.
End element_extras.

(** ** Stages, beyond the memoisation protocol *)

Section stage_extras.
Context {V C : Type}.
Implicit Types (w : World.t V C).

(** X13.  Calling a bare [StrategyElement] raises [NotImplementedError] from
    [get_result] before anything else; a signal or position-rule stage that
    does not define [execute] raises the [NotImplementedError] of [execute]
    whenever its slot is empty or holds another creator's result. *)
Theorem abstract_stage_fails_fast id strategy w s :
  World.strategies w !! strategy = Some s ->
  StrategyElement.call (StrategyElement.StrategyElement id) strategy w
  = Raise (NotImplementedError "Strategy Element must define 'get_child'")
  /\ (stale w (Strategy.signal s) id ->
      StrategyElement.call
        (StrategyElement.SignalElement id
           (StrategyElement.execute (StrategyElement.StrategyElement id)))
        strategy w
      = Raise (NotImplementedError "Strategy Element must define 'execute'"))
  /\ (stale w (Strategy.positions s) id ->
      StrategyElement.call
        (StrategyElement.PositionRuleElement id
           (StrategyElement.execute (StrategyElement.StrategyElement id)))
        strategy w
      = Raise (NotImplementedError "Strategy Element must define 'execute'")).
Proof.
  intros Hs. split; [reflexivity|]. split; intros Hstale.
  - rewrite (call_miss _ strategy w (Strategy.signal s)); [done| |done].
    by apply signal_get_result.
  - rewrite (call_miss _ strategy w (Strategy.positions s)); [done| |done].
    by apply positions_get_result.
Qed.

(** X14.  Once the object returned by a first call has been put in the
    signal slot, a further call by a stage of the same identity returns it
    and leaves the store alone, whatever its [execute] would now compute. *)
Theorem stored_result_is_recognised id execute strategy w s r w1 e0 s1 :
  World.strategies w !! strategy = Some s ->
  stale w (Strategy.signal s) id ->
  execute strategy w = Ok (r, w1) ->
  World.elements w1 !! r = Some e0 ->
  World.strategies w1 !! strategy = Some s1 ->
  exists w2,
    StrategyElement.call (StrategyElement.SignalElement id execute) strategy w
    = Ok (Some r, w2)
    /\ forall execute',
         let w3 := World.mk (World.elements w2) (World.frames w2)
                     (<[strategy := Strategy.mk (Some r) (Strategy.positions s1)
                                      (Strategy.indexer s1) (Strategy.trades s1)]>
                        (World.strategies w2)) in
         StrategyElement.call (StrategyElement.SignalElement id execute') strategy w3
         = Ok (Some r, w3).
Proof.
  intros Hs Hstale Hexec Hr Hs1.
  eexists. split.
  - apply (call_miss_stamps (StrategyElement.SignalElement id execute)
             strategy w (Strategy.signal s) r w1 e0 s1 ["decision"]); try done.
    by apply signal_get_result.
  - intros execute' w3.
    apply (call_hit (StrategyElement.SignalElement id execute') strategy w3 r
             (stamped e0 id (Strategy.indexer s1) ["decision"] 0)).
    + rewrite (signal_get_result id execute' strategy w3
                 (Strategy.mk (Some r) (Strategy.positions s1)
                    (Strategy.indexer s1) (Strategy.trades s1))); [done|].
      subst w3. simpl. apply lookup_insert_eq.
    + subst w3. simpl. apply lookup_insert_eq.
    + reflexivity.
Qed.
End stage_extras.

(** ** Collections and their items *)

Section sequence_facts.
Context {A : Type}.
Implicit Types (l : list A).

Lemma getitem_nonneg l (i : nat) x :
  l !! i = Some x -> PySequence.getitem l (Z.of_nat i) = Ok x.
Proof.
  intros Hi. pose proof (lookup_lt_Some _ _ _ Hi) as Hlt.
  unfold PySequence.getitem. destruct (Z.ltb_spec (Z.of_nat i) 0); [lia|].
  destruct (Z.leb_spec 0 (Z.of_nat i)); [|lia].
  destruct (Z.ltb_spec (Z.of_nat i) (Z.of_nat (length l))); [|lia].
  simpl. by rewrite Nat2Z.id, Hi.
Qed.

Lemma getitem_negative l (i : Z) :
  - Z.of_nat (length l) <= i < 0 ->
  PySequence.getitem l i = PySequence.getitem l (i + Z.of_nat (length l)).
Proof.
  intros Hi. unfold PySequence.getitem.
  destruct (Z.ltb_spec i 0); [|lia].
  destruct (Z.ltb_spec (i + Z.of_nat (length l)) 0); [lia|]. done.
Qed.

Lemma getitem_out_of_range l (i : Z) :
  i < - Z.of_nat (length l) \/ Z.of_nat (length l) <= i ->
  PySequence.getitem l i = Raise IndexError.
Proof.
  intros Hi. unfold PySequence.getitem.
  destruct (Z.ltb_spec i 0).
  - destruct (Z.leb_spec 0 (i + Z.of_nat (length l))); [lia|]. done.
  - destruct (Z.leb_spec 0 i); [|lia].
    destruct (Z.ltb_spec i (Z.of_nat (length l))); [lia|]. done.
Qed.

Lemma getitem_in_range l (i : Z) :
  0 <= i < Z.of_nat (length l) ->
  exists x, l !! Z.to_nat i = Some x /\ PySequence.getitem l i = Ok x.
Proof.
  intros Hi. destruct (lookup_lt_is_Some_2 l (Z.to_nat i)) as [x Hx]; [lia|].
  exists x. split; [done|]. rewrite <- (Z2Nat.id i) by lia.
  by apply getitem_nonneg.
Qed.

Lemma comprehension_all_ok {B} (f : A -> result B) l :
  Forall (fun x => exists y, f x = Ok y) l ->
  exists ys, PySequence.comprehension f l = Ok ys
    /\ Forall2 (fun x y => f x = Ok y) l ys.
Proof.
  induction 1 as [|x l [y Hy] _ (ys & Hys & Hall)].
  - exists []. split; [done|constructor].
  - exists (y :: ys). split; [|by constructor].
    cbn [PySequence.comprehension]. rewrite Hy. cbn [mbind result_bind].
    by rewrite Hys.
Qed.

Lemma comprehension_length {B} (f : A -> result B) l ys :
  PySequence.comprehension f l = Ok ys -> length ys = length l.
Proof.
  revert ys. induction l as [|x l IH]; intros ys; cbn [PySequence.comprehension].
  - by intros [= <-].
  - destruct (f x) as [y|]; [|discriminate]. cbn [mbind result_bind].
    destruct (PySequence.comprehension f l) as [ys'|]; [|discriminate].
    intros [= <-]. simpl. by rewrite (IH ys').
Qed.

Lemma comprehension_first_error {B} (f : A -> result B) l1 x l2 err :
  Forall (fun y => exists b, f y = Ok b) l1 ->
  f x = Raise err ->
  PySequence.comprehension f (l1 ++ x :: l2) = Raise err.
Proof.
  intros Hok Herr. induction Hok as [|y l1 [b Hb] _ IH]; simpl.
  - by rewrite Herr.
  - by rewrite Hb, IH.
Qed.
End sequence_facts.

Section collection_extras.
Context {C Item : Type} `{Collection.Lawful C Item}.
Implicit Types (self : C) (p q : Item -> bool).

Lemma select_first_error (condition : Item -> result bool) (l1 : list Item) x l2 err :
  Forall (fun y => exists b, condition y = Ok b) l1 ->
  condition x = Raise err ->
  Collection.select condition (l1 ++ x :: l2) = Raise err.
Proof.
  intros Hok Herr. induction Hok as [|y l1 [b Hb] _ IH]; simpl.
  - by rewrite Herr.
  - by rewrite Hb, IH.
Qed.

Lemma find_total self (condition : Item -> result bool) p :
  (forall item, condition item = Ok (p item)) ->
  exists c, Collection.find self condition = Ok c
    /\ Collection.items c = List.filter p (Collection.items self).
Proof.
  intros Hp. destruct (Collection.copy_with_ok self
    (List.filter p (Collection.items self))) as (c & Hcopy & Hitems).
  exists c. split; [|done]. unfold Collection.find.
  rewrite (select_total _ p) by done. simpl. exact Hcopy.
Qed.

(** X15.  When the condition raises on some item and returned normally on
    all items before it, [find] raises that exception. *)
Theorem find_raises_first_error self (condition : Item -> result bool) l1 x l2 err :
  Collection.items self = (l1 ++ x :: l2)%list ->
  Forall (fun y => exists b, condition y = Ok b) l1 ->
  condition x = Raise err ->
  Collection.find self condition = Raise err.
Proof.
  intros Hitems Hok Herr. unfold Collection.find.
  by rewrite Hitems, (select_first_error _ _ _ _ _ Hok Herr).
Qed.

(** X16.  With a lawful [copy_with] and total conditions, [find] composes as
    conjunction: filtering by [p] then [q] keeps the items satisfying both,
    in either order, and filtering twice by [p] changes nothing. *)
Theorem find_composes self (cond_p cond_q : Item -> result bool) p q :
  (forall item, cond_p item = Ok (p item)) ->
  (forall item, cond_q item = Ok (q item)) ->
  exists cp cpq cq cqp cpp,
    Collection.find self cond_p = Ok cp
    /\ Collection.find cp cond_q = Ok cpq
    /\ Collection.find self cond_q = Ok cq
    /\ Collection.find cq cond_p = Ok cqp
    /\ Collection.find cp cond_p = Ok cpp
    /\ Collection.items cpq
       = List.filter (fun item => p item && q item) (Collection.items self)
    /\ Collection.items cqp = Collection.items cpq
    /\ Collection.items cpp = Collection.items cp.
Proof.
  intros Hp Hq.
  destruct (find_total self cond_p p Hp) as (cp & Hcp & Hicp).
  destruct (find_total cp cond_q q Hq) as (cpq & Hcpq & Hicpq).
  destruct (find_total self cond_q q Hq) as (cq & Hcq & Hicq).
  destruct (find_total cq cond_p p Hp) as (cqp & Hcqp & Hicqp).
  destruct (find_total cp cond_p p Hp) as (cpp & Hcpp & Hicpp).
  exists cp, cpq, cq, cqp, cpp. do 5 (split; [done|]).
  rewrite Hicpq, Hicqp, Hicpp, Hicp, Hicq.
  assert (Hfilter : forall (f g : Item -> bool) (l : list Item),
            List.filter g (List.filter f l)
            = List.filter (fun item => f item && g item) l).
  { intros f g l. induction l as [|a l IH]; [done|]. simpl.
    destruct (f a) eqn:Hfa; simpl; [rewrite ?Hfa|]; destruct (g a); simpl;
      by rewrite ?IH. }
  split; [apply Hfilter|]. split.
  - rewrite !Hfilter. apply filter_ext. intros a. apply andb_comm.
  - rewrite Hfilter. apply filter_ext. intros a. by destruct (p a).
Qed.
End collection_extras.

Section abstract_collection.
Context {V C Item : Type} `{Collection.Ops C Item}.
Implicit Types (w : World.t V C).

(** X17.  A filter that does not define [accepted_trade] raises
    [NotImplementedError] as soon as the context has a trade; on an empty
    trade collection the predicate is never consulted and the call is
    [copy_with([])]. *)
Theorem abstract_filter_fails_on_first_trade strategy w s :
  World.strategies w !! strategy = Some s ->
  (Collection.items (Strategy.trades s) <> [] ->
   FilterInterface.call FilterInterface.FilterInterface strategy w
   = Raise (NotImplementedError "Filter must implement 'accepted_trade' method"))
  /\ (Collection.items (Strategy.trades s) = [] ->
      FilterInterface.call FilterInterface.FilterInterface strategy w
      = World.lift (Collection.copy_with (Strategy.trades s) []) w).
Proof.
  intros Hs. unfold FilterInterface.call.
  rewrite run_bind, (run_get_strategy _ _ _ Hs). unfold Collection.find.
  split; intros Hitems.
  - destruct (Collection.items (Strategy.trades s)); done.
  - by rewrite Hitems.
Qed.

(** X18.  On the base [Collection], whose [copy_with] is abstract, [find]
    with a total condition always raises [NotImplementedError], even when
    nothing or everything is selected. *)
Theorem base_collection_cannot_find (items : list Item)
    (condition : Item -> result bool) p :
  (forall item, condition item = Ok (p item)) ->
  Collection.find (Collection.mkBase items) condition
  = Raise (NotImplementedError "").
Proof.
  intros Hp. unfold Collection.find. simpl.
  by rewrite (select_total _ p).
Qed.
End abstract_collection.

Section getitem_extras.
Context {C Item : Type} `{Collection.Lawful C Item} `{Collection.Dated Item}.
Context `{EqDecision Item}.
Implicit Types (self : C).

(** X19.  With an integer key, [collection[i]] is the item at position [i]
    for [0 <= i < len], the same as [collection[i + len]] for
    [-len <= i < 0], and an [IndexError] outside [-len, len). *)
Theorem getitem_by_position self (i : Z) :
  (0 <= i < Collection.len self ->
   exists item, Collection.items self !! Z.to_nat i = Some item
     /\ Collection.getitem self (Collection.KeyInt i) = Ok (Collection.Single item))
  /\ (- Collection.len self <= i < 0 ->
      Collection.getitem self (Collection.KeyInt i)
      = Collection.getitem self (Collection.KeyInt (i + Collection.len self)))
  /\ (i < - Collection.len self \/ Collection.len self <= i ->
      Collection.getitem self (Collection.KeyInt i) = Raise IndexError).
Proof.
  unfold Collection.len, Collection.getitem. split; [|split]; intros Hi.
  - destruct (getitem_in_range _ _ Hi) as (x & Hx & ->). by exists x.
  - by rewrite getitem_negative.
  - by rewrite getitem_out_of_range.
Qed.

(** X20.  With a string key [collection[key]] is the sub-collection of the
    items whose ticker equals the key, with a date key that of the items of
    that date, both in the original order; a key of any other type raises
    [ValueError]. *)
Theorem getitem_by_ticker_or_date self (on : Item -> Z) (sym : Item -> string) s d :
  (forall item, Collection.date item = Ok (on item)) ->
  (forall item, Collection.ticker item = Ok (sym item)) ->
  (exists c, Collection.getitem self (Collection.KeyStr s) = Ok (Collection.Several c)
     /\ Collection.items c
        = List.filter (fun item => bool_decide (sym item = s)) (Collection.items self)
     /\ Forall (fun item => sym item = s) (Collection.items c))
  /\ (exists c, Collection.getitem self (Collection.KeyDate d) = Ok (Collection.Several c)
     /\ Collection.items c
        = List.filter (fun item => bool_decide (on item = d)) (Collection.items self)
     /\ Forall (fun item => on item = d) (Collection.items c))
  /\ Collection.getitem self Collection.KeyOther
     = Raise (ValueError "key must be a date, ticker (string), or integer").
Proof.
  intros Hon Hsym. split; [|split; [|done]].
  - destruct (find_total self
        (fun e => t ← Collection.ticker e; Ok (bool_decide (t = s)))
        (fun item => bool_decide (sym item = s))) as (c & Hfind & Hitems).
    { intros item. by rewrite Hsym. }
    exists c. unfold Collection.getitem. rewrite Hfind. split; [done|].
    split; [done|]. rewrite Hitems. apply Forall_forall.
    intros item Hin%list_elem_of_In. apply filter_In in Hin as [_ Hb].
    by apply bool_decide_eq_true_1 in Hb.
  - destruct (find_total self
        (fun e => d' ← Collection.date e; Ok (bool_decide (d' = d)))
        (fun item => bool_decide (on item = d))) as (c & Hfind & Hitems).
    { intros item. by rewrite Hon. }
    exists c. unfold Collection.getitem. rewrite Hfind. split; [done|].
    split; [done|]. rewrite Hitems. apply Forall_forall.
    intros item Hin%list_elem_of_In. apply filter_In in Hin as [_ Hb].
    by apply bool_decide_eq_true_1 in Hb.
Qed.

(** X21.  For an item of the collection, [index] returns the first position
    holding it, and [collection[index(item)]] is that item; for any other
    item [index] raises [ValueError]. *)
Theorem index_then_getitem self (item : Item) :
  (item ∈ Collection.items self ->
   exists i, Collection.index self item = Ok i
     /\ 0 <= i < Collection.len self
     /\ Collection.getitem self (Collection.KeyInt i) = Ok (Collection.Single item)
     /\ forall j other, (j < Z.to_nat i)%nat ->
          Collection.items self !! j = Some other -> other <> item)
  /\ (item ∉ Collection.items self ->
      Collection.index self item = Raise (ValueError "is not in list")).
Proof.
  unfold Collection.index, PySequence.index, Collection.len. split.
  - intros Hin.
    destruct (list_find_elem_of (fun y => y = item) _ item Hin eq_refl)
      as [[i x] Hfind].
    rewrite Hfind. apply list_find_Some in Hfind as (Hi & -> & Hleast).
    exists (Z.of_nat i). split; [done|].
    pose proof (lookup_lt_Some _ _ _ Hi). split; [lia|]. split.
    + unfold Collection.getitem. by rewrite (getitem_nonneg _ _ _ Hi).
    + intros j other Hj Hother. rewrite Nat2Z.id in Hj. by apply (Hleast j).
  - intros Hout.
    assert (Hnone : list_find (fun y => y = item) (Collection.items self) = None).
    { apply list_find_None, Forall_forall. intros y Hy ->. done. }
    by rewrite Hnone.
Qed.
End getitem_extras.

Section item_extras.
Context {Val : Type}.
Implicit Types (self : CollectionItem.t Val).

Lemma as_tuple_ok self :
  Forall (fun name => is_Some (CollectionItem.attrs self !! name))
    (CollectionItem.tuple_fields self) ->
  exists values, CollectionItem.as_tuple self = Ok values
    /\ Forall2 (fun name v => CollectionItem.attrs self !! name = Some v)
         (CollectionItem.tuple_fields self) values.
Proof.
  intros Hall. unfold CollectionItem.as_tuple.
  destruct (comprehension_all_ok (CollectionItem.getattr self)
              (CollectionItem.tuple_fields self)) as (values & Hrun & Hrel).
  { eapply Forall_impl; [exact Hall|]. intros name [v Hv]. exists v.
    unfold CollectionItem.getattr. by rewrite Hv. }
  exists values. split; [done|]. eapply Forall2_impl; [exact Hrel|].
  intros name v. unfold CollectionItem.getattr.
  destruct (CollectionItem.attrs self !! name); congruence.
Qed.

(** X22.  [as_tuple] returns one value per name of [tuple_fields], in order,
    when the item has all of them, and otherwise raises [AttributeError]
    for the first name it lacks. *)
Theorem as_tuple_reads_fields_in_order self :
  (Forall (fun name => is_Some (CollectionItem.attrs self !! name))
     (CollectionItem.tuple_fields self) ->
   exists values, CollectionItem.as_tuple self = Ok values
     /\ length values = length (CollectionItem.tuple_fields self)
     /\ forall i name, CollectionItem.tuple_fields self !! i = Some name ->
          CollectionItem.attrs self !! name = values !! i)
  /\ (forall known name rest,
        CollectionItem.tuple_fields self = (known ++ name :: rest)%list ->
        Forall (fun n => is_Some (CollectionItem.attrs self !! n)) known ->
        CollectionItem.attrs self !! name = None ->
        CollectionItem.as_tuple self = Raise (AttributeError name)).
Proof.
  split.
  - intros Hall. destruct (as_tuple_ok self Hall) as (values & Hrun & Hrel).
    exists values. split; [done|].
    split; [symmetry; by apply (Forall2_length _ _ _ Hrel)|].
    intros i name Hi.
    destruct (Forall2_lookup_l _ _ _ _ _ Hrel Hi) as (v & -> & ->). done.
  - intros known name rest Hfields Hknown Hmissing.
    unfold CollectionItem.as_tuple. rewrite Hfields.
    apply comprehension_first_error.
    + eapply Forall_impl; [exact Hknown|]. intros n [v Hv]. exists v.
      unfold CollectionItem.getattr. by rewrite Hv.
    + unfold CollectionItem.getattr. by rewrite Hmissing.
Qed.
End item_extras.

Section dataframe_extras.
Context {C Val Frame : Type} `{Collection.Ops C (CollectionItem.t Val)}.
Variable DataFrame_of_rows : list (list Val) -> list string -> result Frame.

(** X23.  [as_dataframe] raises [IndexError] on an empty collection; on
    items that have all their fields it hands the constructor one row per
    item, each as wide as that item's [tuple_fields], with the first item's
    [tuple_fields] as columns. *)
Theorem as_dataframe_needs_an_item (self : C) :
  (Collection.items self = [] ->
   Collection.as_dataframe DataFrame_of_rows self = Raise IndexError)
  /\ (forall head rest,
        Collection.items self = head :: rest ->
        Forall (fun item =>
                  Forall (fun name => is_Some (CollectionItem.attrs item !! name))
                    (CollectionItem.tuple_fields item)) (head :: rest) ->
        exists rows,
          Collection.as_dataframe DataFrame_of_rows self
          = DataFrame_of_rows rows (CollectionItem.tuple_fields head)
          /\ length rows = length (Collection.items self)
          /\ Forall2 (fun item row =>
                        length row = length (CollectionItem.tuple_fields item))
               (Collection.items self) rows).
Proof.
  unfold Collection.as_dataframe. split.
  - intros ->. reflexivity.
  - intros head rest Hitems Hall. rewrite Hitems.
    destruct (comprehension_all_ok CollectionItem.as_tuple (head :: rest))
      as (rows & Hrun & Hrel).
    { eapply Forall_impl; [exact Hall|]. intros item Hitem.
      destruct (as_tuple_ok item Hitem) as (row & Hrow & _). by exists row. }
    exists rows. rewrite Hrun. split; [done|].
    split; [by apply (comprehension_length _ _ _ Hrun)|].
    eapply Forall2_impl; [exact Hrel|]. intros item row Hrow.
    by apply (comprehension_length _ _ _ Hrow).
Qed.
End dataframe_extras.

(** ** Level signals *)

Section crossover_extras.

(** X24.  [TripleCrossover.update_param] raises [IndexError] for fewer
    than three parameters; otherwise fast, mid and slow become the three
    smallest parameters in increasing order. *)
Theorem update_param_takes_three_smallest (self : TripleCrossover.t)
    (new_params : list Z) :
  ((length new_params < 3)%nat ->
   TripleCrossover.update_param self new_params = Raise IndexError)
  /\ ((3 <= length new_params)%nat ->
      exists f m s rest,
        TripleCrossover.update_param self new_params
        = Ok (TripleCrossover.mk (TripleCrossover.Number f)
                (TripleCrossover.Number m) (TripleCrossover.Number s))
        /\ f <= m <= s
        /\ new_params ≡ₚ f :: m :: s :: rest
        /\ Forall (fun other => s <= other) rest).
Proof.
  unfold TripleCrossover.update_param.
  pose proof (merge_sort_Permutation Z.le new_params) as Hperm.
  pose proof (StronglySorted_merge_sort Z.le new_params) as Hsorted.
  pose proof (Permutation_length Hperm) as Hlen.
  destruct (merge_sort Z.le new_params) as [|f [|m [|s rest]]]; simpl in Hlen.
  - split; [done|lia].
  - split; [done|lia].
  - split; [done|lia].
  - split; [lia|]. intros _. exists f, m, s, rest.
    pose proof (getitem_nonneg (f :: m :: s :: rest) 0 f eq_refl) as H0.
    pose proof (getitem_nonneg (f :: m :: s :: rest) 1 m eq_refl) as H1.
    pose proof (getitem_nonneg (f :: m :: s :: rest) 2 s eq_refl) as H2.
    change (Z.of_nat 0) with 0 in H0. change (Z.of_nat 1) with 1 in H1.
    change (Z.of_nat 2) with 2 in H2. rewrite H0, H1, H2.
    split; [reflexivity|].
    apply StronglySorted_inv in Hsorted as [Hs1 Hf].
    apply StronglySorted_inv in Hs1 as [Hs2 Hm].
    apply StronglySorted_inv in Hs2 as [_ Hs].
    apply Forall_cons in Hf as [Hfm _]. apply Forall_cons in Hm as [Hms _].
    split; [lia|]. split; [by symmetry|done].
Qed.

(** X25.  Built from three indicators, [name] joins their names with x in
    the order fast, mid, slow; after a successful [update_param] the three
    attributes are bare numbers and [name] raises [AttributeError]. *)
Theorem name_breaks_after_update_param (self : TripleCrossover.t)
    (new_params : list Z) updated f m s :
  TripleCrossover.name (TripleCrossover.init (TripleCrossover.Indicator s)
                          (TripleCrossover.Indicator m) (TripleCrossover.Indicator f))
  = Ok (String.concat "x" [f; m; s])
  /\ (TripleCrossover.update_param self new_params = Ok updated ->
      TripleCrossover.name updated = Raise (AttributeError "name")).
Proof.
  split; [reflexivity|]. unfold TripleCrossover.update_param. intros Hup.
  destruct (PySequence.getitem _ 0); [|discriminate].
  destruct (PySequence.getitem _ 1); [|discriminate].
  destruct (PySequence.getitem _ 2); [|discriminate].
  simpl in Hup. by injection Hup as <-.
Qed.
End crossover_extras.

(** ** The further properties on concrete data *)

#[global] Instance events_lawful : Collection.Lawful Sample.Events Sample.Event.
Proof. constructor. intros c l. by exists (Sample.mkEvents l). Qed.

Lemma convert_timing_table_witness :
  Indexer.convert_timing (indexer_of "CC" "C") "decision" = Ok "C"
  /\ Indexer.convert_timing (indexer_of "CC" "C") "entry" = PyStr.first "CC"
  /\ Indexer.convert_timing (indexer_of "CC" "C") "exit" = PyStr.last "CC"
  /\ Indexer.convert_timing (indexer_of "CC" "C") "entry"
     = Indexer.convert_timing (indexer_of "CC" "C") "exit"
  /\ Indexer.convert_timing (indexer_of "CC" "C") "open" = Ok "O"
  /\ Indexer.convert_timing (indexer_of "CC" "C") "close" = Ok "C".
Proof.
  apply (convert_timing_table "CC" "C"). vm_compute. reflexivity.
Defined.

Lemma convert_timing_recognizes_witness :
  (recognized "Entry" ->
   exists bucket, Indexer.convert_timing (indexer_of "CC" "C") "Entry" = Ok bucket
     /\ (bucket = "O" \/ bucket = "C"))
  /\ (~ recognized "Entry" ->
      Indexer.convert_timing (indexer_of "CC" "C") "Entry"
      = Raise (ValueError "Timing must be one of: decision,entry,exit,open,close")).
Proof.
  apply (convert_timing_recognizes "CC" "C"). vm_compute. reflexivity.
Defined.

Lemma get_lag_fails_exactly_witness :
  (recognized "open" /\ recognized "noon" ->
   exists lag, Indexer.get_lag (indexer_of "CC" "C") "open" "noon" = Ok lag)
  /\ (~ (recognized "open" /\ recognized "noon") ->
      Indexer.get_lag (indexer_of "CC" "C") "open" "noon"
      = Raise (ValueError "Timing must be one of: decision,entry,exit,open,close")).
Proof.
  apply (get_lag_fails_exactly "CC" "C"). vm_compute. reflexivity.
Defined.

Lemma get_lag_one_way_witness :
  Indexer.get_lag (indexer_of "CC" "C") "open" "open" = Ok 1
  /\ (Indexer.get_lag (indexer_of "CC" "C") "open" "decision" = Ok 0 ->
      Indexer.get_lag (indexer_of "CC" "C") "decision" "open" = Ok 1).
Proof.
  apply (get_lag_one_way "CC" "C").
  - vm_compute. reflexivity.
  - apply label_recognized. vm_compute. reflexivity.
  - apply label_recognized. vm_compute. reflexivity.
Defined.

Lemma entry_exit_interchangeable_witness :
  Indexer.get_lag (indexer_of "OO" "C") "entry" "decision"
  = Indexer.get_lag (indexer_of "OO" "C") "exit" "decision"
  /\ Indexer.get_lag (indexer_of "OO" "C") "decision" "entry"
     = Indexer.get_lag (indexer_of "OO" "C") "decision" "exit".
Proof.
  apply (entry_exit_interchangeable "OO" "C"). vm_compute. reflexivity.
Defined.

Lemma shift_keeps_labels_and_stamps_witness :
  exists y ey w',
    DataElement.shift (H := pandas) 1%positive (-1) world = Ok (y, w')
    /\ World.elements w' !! y = Some ey
    /\ Element.lag ey = Element.lag signal_element + (-1)
    /\ Element.creator ey = Element.creator signal_element
    /\ Element.calculation_timing ey = Element.calculation_timing signal_element
    /\ Element.indexer ey = Element.indexer signal_element
    /\ DataElement.index y w' = DataElement.index 1%positive w'
    /\ DataElement.tickers y w' = DataElement.tickers 1%positive w'
    /\ (exists labels, DataElement.index y w' = Ok (labels, w'))
    /\ (length <$> (DataFrame.values <$> data_of w' y)
        = length <$> (DataFrame.values <$> data_of world 1%positive)).
Proof.
  apply (shift_keeps_labels_and_stamps (H := pandas) world 1%positive
           signal_element levels (-1)).
  - reflexivity.
  - vm_compute. reflexivity.
Defined.

Lemma shift_zero_is_equal_copy_witness :
  exists y w',
    DataElement.shift (H := pandas) 1%positive 0 world = Ok (y, w')
    /\ y <> 1%positive
    /\ lag_of w' y = Some (Element.lag signal_element)
    /\ data_of w' y = Some levels
    /\ lag_of w' 1%positive = Some (Element.lag signal_element)
    /\ data_of w' 1%positive = Some levels.
Proof.
  apply (shift_zero_is_equal_copy (H := pandas) world 1%positive signal_element levels).
  - reflexivity.
  - vm_compute. reflexivity.
Defined.

Lemma shift_there_and_back_witness :
  exists y w1 z w2,
    DataElement.shift (H := pandas) 1%positive 2 world = Ok (y, w1)
    /\ DataElement.shift (H := pandas) y (- 2) w1 = Ok (z, w2)
    /\ lag_of w2 z = Some (Element.lag signal_element)
    /\ data_of w2 z
       = Some (DataFrame.mk (DataFrame.index levels) (DataFrame.columns levels)
                 (take (length (DataFrame.values levels) - Z.to_nat 2)
                       (DataFrame.values levels)
                  ++ replicate (length (DataFrame.values levels) `min` Z.to_nat 2)
                       (DataFrame.nan_row levels))%list).
Proof.
  apply (shift_there_and_back (H := pandas) world 1%positive signal_element levels 2).
  - reflexivity.
  - vm_compute. reflexivity.
  - lia.
Defined.

Lemma at_own_timing_shifts_by_one_witness :
  exists label,
    PyList.last (Element.calculation_timing signal_element) = Ok label
    /\ DataElement.at_ (H := pandas) 1%positive label world
       = DataElement.shift (H := pandas) 1%positive 1 world
    /\ exists y w', DataElement.at_ (H := pandas) 1%positive label world = Ok (y, w')
         /\ lag_of w' y = Some (Element.lag signal_element + 1).
Proof.
  apply (at_own_timing_shifts_by_one (H := pandas) world 1%positive signal_element).
  exact signal_well_formed.
Defined.

Lemma alignment_errors_witness :
  (Element.calculation_timing signal_element = [] ->
   DataElement.at_ (H := pandas) 1%positive "noon" world = Raise IndexError)
  /\ (Element.calculation_timing positions_element = [] ->
      DataElement.align_with (H := pandas) 1%positive 2%positive world
      = Raise IndexError)
  /\ (Element.calculation_timing positions_element <> [] ->
      Element.calculation_timing signal_element = [] ->
      DataElement.align_with (H := pandas) 1%positive 2%positive world
      = Raise IndexError)
  /\ ((exists trade ind, Indexer.init trade ind = Ok (Element.indexer signal_element)) ->
      Element.calculation_timing signal_element <> [] ->
      Forall recognized (Element.calculation_timing signal_element) ->
      (~ recognized "noon" ->
       DataElement.at_ (H := pandas) 1%positive "noon" world
       = Raise (ValueError "Timing must be one of: decision,entry,exit,open,close"))
      /\ (forall target,
            PyList.first (Element.calculation_timing positions_element) = Ok target ->
            ~ recognized target ->
            DataElement.align_with (H := pandas) 1%positive 2%positive world
            = Raise (ValueError
                       "Timing must be one of: decision,entry,exit,open,close"))).
Proof.
  apply (alignment_errors (H := pandas) world 1%positive 2%positive
           signal_element positions_element "noon"); reflexivity.
Defined.

Lemma align_with_is_at_then_shift_witness :
  exists target y w1 z w2 a w3,
    PyList.first (Element.calculation_timing positions_element) = Ok target
    /\ DataElement.at_ (H := pandas) 1%positive target world = Ok (y, w1)
    /\ DataElement.shift (H := pandas) y (Element.lag positions_element) w1 = Ok (z, w2)
    /\ DataElement.align_with (H := pandas) 1%positive 2%positive w2 = Ok (a, w3)
    /\ lag_of w3 z = lag_of w3 a
    /\ data_of w3 z = data_of w3 a
    /\ is_Some (data_of w3 a).
Proof.
  apply (align_with_is_at_then_shift (H := pandas) world 1%positive 2%positive
           signal_element positions_element).
  - exact signal_well_formed.
  - exact positions_well_formed.
  - simpl. lia.
Defined.

Lemma abstract_stage_fails_fast_witness :
  StrategyElement.call (V := Z) (C := TradeCollection)
    (StrategyElement.StrategyElement 7) 2%positive world
  = Raise (NotImplementedError "Strategy Element must define 'get_child'")
  /\ (stale world None 7 ->
      StrategyElement.call
        (StrategyElement.SignalElement 7
           (StrategyElement.execute (StrategyElement.StrategyElement 7)))
        2%positive world
      = Raise (NotImplementedError "Strategy Element must define 'execute'"))
  /\ (stale world None 7 ->
      StrategyElement.call
        (StrategyElement.PositionRuleElement 7
           (StrategyElement.execute (StrategyElement.StrategyElement 7)))
        2%positive world
      = Raise (NotImplementedError "Strategy Element must define 'execute'")).
Proof.
  apply (abstract_stage_fails_fast 7 2%positive world
           (Strategy.mk None None (indexer_of "CC" "C") book)).
  reflexivity.
Defined.

Lemma stored_result_is_recognised_witness :
  exists w2,
    StrategyElement.call (StrategyElement.SignalElement 7 crossover_execute)
      2%positive world = Ok (Some 3%positive, w2)
    /\ forall execute',
         let w3 := World.mk (World.elements w2) (World.frames w2)
                     (<[2%positive := Strategy.mk (Some 3%positive) None
                                        (indexer_of "CC" "C") book]>
                        (World.strategies w2)) in
         StrategyElement.call (StrategyElement.SignalElement 7 execute')
           2%positive w3 = Ok (Some 3%positive, w3).
Proof.
  apply (stored_result_is_recognised 7 crossover_execute 2%positive world
           (Strategy.mk None None (indexer_of "CC" "C") book)
           3%positive world_executed unstamped
           (Strategy.mk None None (indexer_of "CC" "C") book)).
  - reflexivity.
  - exact I.
  - vm_compute. reflexivity.
  - reflexivity.
  - reflexivity.
Defined.

Lemma find_raises_first_error_witness :
  Collection.find Sample.events
    (fun e => if Sample.size e <? 0 then Raise (ValueError "short") else Ok true)
  = Raise (ValueError "short").
Proof.
  apply (find_raises_first_error Sample.events _
           [Sample.mkEvent 20200101 "AAA" 10; Sample.mkEvent 20200101 "BBB" 5]
           (Sample.mkEvent 20200102 "AAA" (-10))
           [Sample.mkEvent 20200103 "BBB" 7]).
  - reflexivity.
  - repeat constructor; by exists true.
  - reflexivity.
Defined.

Lemma find_composes_witness :
  exists cp cpq cq cqp cpp,
    Collection.find Sample.events (fun e => Ok (0 <? Sample.size e)) = Ok cp
    /\ Collection.find cp (fun e => Ok (bool_decide (Sample.symbol e = "BBB"))) = Ok cpq
    /\ Collection.find Sample.events
         (fun e => Ok (bool_decide (Sample.symbol e = "BBB"))) = Ok cq
    /\ Collection.find cq (fun e => Ok (0 <? Sample.size e)) = Ok cqp
    /\ Collection.find cp (fun e => Ok (0 <? Sample.size e)) = Ok cpp
    /\ Collection.items cpq
       = List.filter
           (fun item => (0 <? Sample.size item)
                        && bool_decide (Sample.symbol item = "BBB"))
           (Collection.items Sample.events)
    /\ Collection.items cqp = Collection.items cpq
    /\ Collection.items cpp = Collection.items cp.
Proof.
  apply (find_composes Sample.events
           (fun e => Ok (0 <? Sample.size e))
           (fun e => Ok (bool_decide (Sample.symbol e = "BBB")))
           (fun e => 0 <? Sample.size e)
           (fun e => bool_decide (Sample.symbol e = "BBB"))).
  - intros item. reflexivity.
  - intros item. reflexivity.
Defined.

Lemma abstract_filter_fails_on_first_trade_witness :
  (Collection.items book <> [] ->
   FilterInterface.call (V := Z) FilterInterface.FilterInterface 1%positive world
   = Raise (NotImplementedError "Filter must implement 'accepted_trade' method"))
  /\ (Collection.items book = [] ->
      FilterInterface.call (V := Z) FilterInterface.FilterInterface 1%positive world
      = World.lift (Collection.copy_with book []) world).
Proof.
  apply (abstract_filter_fails_on_first_trade (V := Z) 1%positive world
           (Strategy.mk (Some 1%positive) (Some 2%positive) (indexer_of "CC" "C") book)).
  reflexivity.
Defined.

Lemma base_collection_cannot_find_witness :
  Collection.find (Collection.mkBase (Collection.items Sample.events))
    (fun e => Ok (0 <? Sample.size e))
  = Raise (NotImplementedError "").
Proof.
  apply (base_collection_cannot_find (Collection.items Sample.events)
           (fun e => Ok (0 <? Sample.size e)) (fun e => 0 <? Sample.size e)).
  intros item. reflexivity.
Defined.

Lemma getitem_by_ticker_or_date_witness :
  (exists c,
     Collection.getitem Sample.events (Collection.KeyStr "AAA")
     = Ok (Collection.Several c)
     /\ Collection.items c
        = List.filter (fun item => bool_decide (Sample.symbol item = "AAA"))
            (Collection.items Sample.events)
     /\ Forall (fun item => Sample.symbol item = "AAA") (Collection.items c))
  /\ (exists c,
        Collection.getitem Sample.events (Collection.KeyDate 20200101)
        = Ok (Collection.Several c)
        /\ Collection.items c
           = List.filter (fun item => bool_decide (Sample.on item = 20200101))
               (Collection.items Sample.events)
        /\ Forall (fun item => Sample.on item = 20200101) (Collection.items c))
  /\ Collection.getitem Sample.events Collection.KeyOther
     = Raise (ValueError "key must be a date, ticker (string), or integer").
Proof.
  apply (getitem_by_ticker_or_date Sample.events Sample.on Sample.symbol
           "AAA" 20200101).
  - intros item. reflexivity.
  - intros item. reflexivity.
Defined.
